(** * music-proxy: parameter rewriting and response reshaping

    A shallow embedding of the three request handlers of the repository

    - [_worker.js]                         ([Worker.handleRequest], [Worker.fetch])
    - [my-vercel-project/api/music.js]     ([Pages.onRequest])
    - the serverless [handler]             ([Vercel.handler])

    together with the two host containers they rewrite the query in
    ([URLSearchParams] and the JavaScript [Map]), and the properties of the
    pipeline they implement.

    Conventions of the model.
    - A JavaScript string is a [string] holding its UTF-8 bytes.
    - A JSON number is a [Z]: the handlers only compare a number with [200],
      test whether it is zero and copy it, and an HTTP status is an integer.
    - A handler is run on an [engine], which bounds how deep a value
      [JSON.stringify] can walk, and against [net], the answer of the
      network to the one URL it fetches; the run records the URLs fetched. *)

From Stdlib Require Import List String Ascii Bool ZArith Lia.
From Stdlib Require Import DecimalString.
Import ListNotations.
Local Open Scope string_scope.
Local Open Scope list_scope.
#[local] Set Warnings "-register-all".

(** ** Query parameters *)

(** The entries of a query, in order; a name may occur several times. *)
Definition Query : Type := list (string * string).

Definition named (name : string) (p : string * string) : bool :=
  String.eqb (fst p) name.
Arguments named : simpl never.

(** The values recorded under [name], in order. *)
Definition values_of (name : string) (q : Query) : list string :=
  map snd (filter (named name) q).

(** [URLSearchParams] of the URL standard: an ordered list of name-value
    pairs. *)
Module URLSearchParams.

Definition has (name : string) (q : Query) : bool :=
  existsb (named name) q.

(** The value of the first pair called [name], [null] if there is none. *)
Definition get (name : string) (q : Query) : option string :=
  option_map snd (find (named name) q).

(** Removes every pair called [name]. *)
Definition delete (name : string) (q : Query) : Query :=
  filter (fun p => negb (named name p)) q.

(** Overwrites the first pair called [name] and removes the others; appends
    a pair if there is none. *)
Fixpoint set (name value : string) (q : Query) : Query :=
  match q with
  | [] => [(name, value)]
  | p :: rest =>
      if named name p then (name, value) :: delete name rest
      else p :: set name value rest
  end.

Definition entries (q : Query) : list (string * string) := q.

End URLSearchParams.

(** The JavaScript [Map] with string keys: its entries in insertion order.
    A map built by [set] from the empty map holds each key once
    ([set_keys]). *)
Module JSMap.

Definition has (key : string) (m : Query) : bool :=
  existsb (named key) m.

Definition get (key : string) (m : Query) : option string :=
  option_map snd (find (named key) m).

Definition delete (key : string) (m : Query) : Query :=
  filter (fun p => negb (named key p)) m.

(** Updates the value of [key] in place; a new key goes to the end. *)
Fixpoint set (key value : string) (m : Query) : Query :=
  match m with
  | [] => [(key, value)]
  | p :: rest =>
      if named key p then (key, value) :: rest
      else p :: set key value rest
  end.

Definition entries (m : Query) : list (string * string) := m.

End JSMap.

(** ** Serialising a query *)

Definition hex_digit (n : N) : ascii :=
  match n with
  | 0 => "0" | 1 => "1" | 2 => "2" | 3 => "3" | 4 => "4" | 5 => "5"
  | 6 => "6" | 7 => "7" | 8 => "8" | 9 => "9" | 10 => "A" | 11 => "B"
  | 12 => "C" | 13 => "D" | 14 => "E" | _ => "F"
  end%N%char.

(** [%XX] for one byte. *)
Definition percent_byte (c : ascii) : string :=
  let n := N_of_ascii c in
  String "%" (String (hex_digit (n / 16)) (String (hex_digit (n mod 16)) "")).

Definition is_alnum (c : ascii) : bool :=
  let n := N_of_ascii c in
  ((48 <=? n) && (n <=? 57) || (65 <=? n) && (n <=? 90)
   || (97 <=? n) && (n <=? 122))%N.

Definition one_of (set : string) (c : ascii) : bool :=
  existsb (Ascii.eqb c) (list_ascii_of_string set).

Fixpoint percent_encode (keep : ascii -> bool) (plus_space : bool)
    (s : string) : string :=
  match s with
  | EmptyString => EmptyString
  | String c rest =>
      let tail := percent_encode keep plus_space rest in
      if plus_space && Ascii.eqb c " " then String "+" tail
      else if keep c then String c tail
      else (percent_byte c ++ tail)%string
  end.

(** The [application/x-www-form-urlencoded] byte serialiser used by
    [URLSearchParams.prototype.toString]. *)
Definition form_urlencode : string -> string :=
  percent_encode (fun c => is_alnum c || one_of "*-._" c) true.

Definition encodeURIComponent : string -> string :=
  percent_encode (fun c => is_alnum c || one_of "-_.!~*'()" c) false.

Definition join_pairs (enc : string -> string) (q : Query) : string :=
  String.concat "&" (map (fun p => (enc (fst p) ++ "=" ++ enc (snd p))%string) q).

Definition URLSearchParams_toString (q : Query) : string :=
  join_pairs form_urlencode q.

(** ** JavaScript values *)

(** The values the handlers see: parsed JSON, [undefined] for a missing
    property, and a function where a property read reaches a method of a
    prototype. *)
Inductive value : Type :=
| VUndefined
| VNull
| VBool (b : bool)
| VNum (n : Z)
| VStr (s : string)
| VArr (items : list value)
| VObj (fields : list (string * value))
| VFunction.

Definition own (key : string) (fields : list (string * value)) : value :=
  match find (fun f => String.eqb (fst f) key) fields with
  | Some f => snd f
  | None => VUndefined
  end.

(** [v.key] for a [v] that is neither [null] nor [undefined], at the property
    names the handlers read ([code], [data], [title], [singer], [cover],
    [link], [music_url], [lrc_url]): an object answers with its own property;
    of the other values only a string inherits one of them,
    [String.prototype.link]. *)
Definition prop (v : value) (key : string) : value :=
  match v with
  | VObj fields => own key fields
  | VStr _ => if String.eqb key "link" then VFunction else VUndefined
  | _ => VUndefined
  end.

Definition nullish (v : value) : bool :=
  match v with
  | VUndefined | VNull => true
  | _ => false
  end.

Definition truthy (v : value) : bool :=
  match v with
  | VUndefined | VNull => false
  | VBool b => b
  | VNum n => negb (n =? 0)%Z
  | VStr s => negb (String.eqb s "")
  | VArr _ | VObj _ | VFunction => true
  end.

(** [v === n] for a number literal [n]. *)
Definition strict_eq_num (v : value) (n : Z) : bool :=
  match v with
  | VNum m => (m =? n)%Z
  | _ => false
  end.

(** [a ?? b] *)
Definition nullish_coalesce (a b : value) : value :=
  if nullish a then b else a.

(** [a || b] *)
Definition logical_or (a b : value) : value :=
  if truthy a then a else b.

(** [v?.key] *)
Definition optional_prop (v : value) (key : string) : value :=
  if nullish v then VUndefined else prop v key.

Definition number_to_string (n : Z) : string :=
  NilZero.string_of_int (Z.to_int n).

(** ** Running a handler *)

(** How a piece of code ends: with a value, or with an exception of which the
    handlers only read [message]. *)
Inductive completion (A : Type) : Type :=
| Normal (a : A)
| Throw (message : string).
Arguments Normal {A} a.
Arguments Throw {A} message.

(** A run: the URLs fetched so far, oldest first, and the completion. *)
Definition Run (A : Type) : Type := list string * completion A.

Definition ret {A} (a : A) : Run A := ([], Normal a).

Definition throw {A} (message : string) : Run A := ([], Throw message).

Definition bind {A B} (m : Run A) (k : A -> Run B) : Run B :=
  match m with
  | (fetched, Normal a) => let (more, c) := k a in (fetched ++ more, c)
  | (fetched, Throw e) => (fetched, Throw e)
  end.

(** [try { m } catch (e) { handler e }] *)
Definition try_catch {A} (m : Run A) (handler : string -> Run A) : Run A :=
  match m with
  | (fetched, Throw e) => let (more, c) := handler e in (fetched ++ more, c)
  | (fetched, Normal a) => (fetched, Normal a)
  end.

(** [let x; try { x = m } catch (e) { return handler e }] followed by [k x]. *)
Definition try_or_return {A B} (m : Run A) (handler : string -> Run B)
    (k : A -> Run B) : Run B :=
  match m with
  | (fetched, Throw e) => let (more, c) := handler e in (fetched ++ more, c)
  | (fetched, Normal a) => let (more, c) := k a in (fetched ++ more, c)
  end.

Notation "x <- m ;; k" := (bind m (fun x => k))
  (at level 61, m at next level, right associativity).

Definition fetched {A} (r : Run A) : list string := fst r.
Definition outcome {A} (r : Run A) : completion A := snd r.

(** What [apiResponse.json()] does with the body received. *)
Inductive Body : Type :=
| Malformed (message : string)
| Json (v : value).

(** The upstream's HTTP response. *)
Record ApiResponse : Type := { api_status : Z; api_body : Body }.

(** What the network does with a GET: [fetch] rejects, or a response
    arrives. *)
Inductive Answer : Type :=
| Unreachable (message : string)
| Received (r : ApiResponse).

Definition Network : Type := string -> Answer.

Definition fetch_url (net : Network) (url : string) : Run ApiResponse :=
  ([url], match net url with
          | Unreachable e => Throw e
          | Received r => Normal r
          end).

(** [apiResponse.ok] *)
Definition ok (r : ApiResponse) : bool :=
  ((200 <=? api_status r) && (api_status r <=? 299))%Z.

Definition json (r : ApiResponse) : Run value :=
  match api_body r with
  | Malformed e => throw e
  | Json v => ret v
  end.

(** V8's wording of the [TypeError] for a property read on [null] or
    [undefined]. *)
Definition cannot_read (v : value) (key : string) : string :=
  ("Cannot read properties of "
     ++ (match v with VNull => "null" | _ => "undefined" end)
     ++ " (reading '" ++ key ++ "')")%string.

(** [v.key] *)
Definition member (v : value) (key : string) : Run value :=
  if nullish v then throw (cannot_read v key) else ret (prop v key).

(** ** Requests and replies *)

Record Request : Type := { method : string; query : Query }.

(** The [return] statement a reply comes from, after the error taxonomy of
    the specification. *)
Inductive Branch : Type :=
| MethodNotAllowed
| MissingName
| NetworkFailure
| UpstreamHTTPError
| UpstreamParseError
| UpstreamDomainError
| Success
| UnhandledInternalError.

(** The response built: [payload] is the value [JSON.stringify] serialised
    into the body; [via] names the statement that built it and is not
    sent. *)
Record Reply : Type := {
  via : Branch;
  status : Z;
  headers : list (string * string);
  payload : value
}.

Definition content_type : string * string :=
  ("Content-Type", "application/json; charset=utf-8").

Definition allow_origin : string * string :=
  ("Access-Control-Allow-Origin", "*").

(** [{ code, error_msg }] *)
Definition error_body (code : Z) (error_msg : string) : value :=
  VObj [("code", VNum code); ("error_msg", VStr error_msg)].

(** ** [JSON.stringify] *)

(** The nesting of a value: 0 for a primitive, one more than that of its
    deepest item for an array or an object. *)
Fixpoint depth (v : value) : nat :=
  match v with
  | VArr items => S (fold_right (fun x deepest => Nat.max (depth x) deepest) 0 items)
  | VObj fields =>
      S (fold_right
           (fun (f : string * value) deepest =>
              Nat.max (let (_, x) := f in depth x) deepest)
           0 fields)
  | _ => 0
  end.

(** The engine the code runs on. [JSON.stringify] walks a value recursively
    and throws a [RangeError] when the nesting exhausts the call stack;
    [room] is the nesting below a flat array or object that the stack has
    room for. The source fixes no engine: it is a parameter of every run. *)
Record Engine : Type := { room : nat }.

(** V8's wording of that [RangeError]. *)
Definition stack_exceeded : string := "Maximum call stack size exceeded".

Definition stringify_throws (engine : Engine) (v : value) : bool :=
  negb (Nat.leb (Nat.pred (depth v)) (room engine)).
Arguments stringify_throws : simpl never.

(** [JSON.stringify(v)]; the text is stood for by the value it spells. *)
Definition JSON_stringify (engine : Engine) (v : value) : Run value :=
  if stringify_throws engine v then throw stack_exceeded else ret v.

(** [new Response(JSON.stringify(v), { status, headers })]: the argument is
    serialised before the response exists. *)
Definition new_Response (engine : Engine) (via : Branch) (status : Z)
    (headers : list (string * string)) (v : value) : Run Reply :=
  body <- JSON_stringify engine v ;;
  ret {| via := via; status := status; headers := headers; payload := body |}.

(** ** [_worker.js] *)

Module Worker.

Definition TARGET_API_BASE : string := "http://music-proxy.dc1.de5.net/".

(** [params] when the forward URL is built, from the [searchParams] of the
    request URL. Under the [has] guard [get] finds a value; [set] would turn
    the [null] of a missing name into a string. *)
Definition params (searchParams : Query) : Query :=
  let params := URLSearchParams.set "type" "json" searchParams in
  let params :=
    if negb (URLSearchParams.has "br" params)
    then URLSearchParams.set "br" "1" params
    else params in
  let params := URLSearchParams.set "n" "1" params in
  if URLSearchParams.has "name" params then
    let name :=
      match URLSearchParams.get "name" params with
      | Some v => v
      | None => "null"
      end in
    URLSearchParams.delete "name" (URLSearchParams.set "msg" name params)
  else params.

Definition forward_url (searchParams : Query) : string :=
  (TARGET_API_BASE ++ "?" ++ URLSearchParams_toString (params searchParams))%string.

(** Built after [api_data.code] was read, so [api_data] is neither [null]
    nor [undefined]; [music_data] is truthy. *)
Definition final_response (api_data music_data : value) : value :=
  VObj [
    ("code", nullish_coalesce (prop api_data "code") (VNum 200));
    ("title", nullish_coalesce (prop music_data "title") (VStr ""));
    ("singer", nullish_coalesce (prop music_data "singer") (VStr ""));
    ("cover", nullish_coalesce (prop music_data "cover") (VStr ""));
    ("link", nullish_coalesce (prop music_data "link") (VStr ""));
    ("music_url", nullish_coalesce (prop music_data "music_url") (VStr ""));
    ("lyric", nullish_coalesce (prop music_data "lrc_url") (VStr ""))
  ].

Definition handleRequest (engine : Engine) (request : Request)
    (net : Network) : Run Reply :=
  if negb (String.eqb (method request) "GET") then
    new_Response engine MethodNotAllowed 405 [content_type]
      (error_body 405 "Method Not Allowed")
  else
    try_or_return (fetch_url net (forward_url (query request)))
      (fun e =>
         new_Response engine NetworkFailure 500 [content_type]
           (error_body 500 ("请求目标API失败: 网络错误 " ++ e)))
      (fun apiResponse =>
    if negb (ok apiResponse) then
      new_Response engine UpstreamHTTPError 500 [content_type]
        (error_body (api_status apiResponse)
           ("请求目标API失败: HTTP状态码 "
              ++ number_to_string (api_status apiResponse)))
    else
    try_or_return (json apiResponse)
      (fun e =>
         new_Response engine UpstreamParseError 500 [content_type]
           (error_body 500 ("解析API响应JSON失败: " ++ e)))
      (fun api_data =>
    code <- member api_data "code" ;;
    if negb (strict_eq_num code 200) then
      new_Response engine UpstreamDomainError 200 [content_type] api_data
    else
    data <- member api_data "data" ;;
    let music_data := logical_or data (VObj []) in
    new_Response engine Success 200 [content_type; allow_origin]
      (final_response api_data music_data))).

(** The entry point, [fetch(request, env, ctx)] of the default export. *)
Definition fetch (engine : Engine) (request : Request) (net : Network) :
    Run Reply :=
  try_catch (handleRequest engine request net)
    (fun e =>
       new_Response engine UnhandledInternalError 500 [content_type]
         (error_body 500 ("Internal Server Error: " ++ e))).

End Worker.

(** ** [my-vercel-project/api/music.js] *)

Module Pages.

Definition TARGET_API_BASE : string := "https://api.cenguigui.cn/api/mg_music/".

(** The [Map] filled from [searchParams.entries()]. *)
Definition copy (searchParams : Query) : Query :=
  fold_left (fun m p => JSMap.set (fst p) (snd p) m)
    (URLSearchParams.entries searchParams) [].

(** The rewriting of [requestParams] after the copy. Under the [has] guard
    [get] finds a value; the [undefined] of a missing key would be printed
    so by [encodeURIComponent]. *)
Definition rewrite (requestParams : Query) : Query :=
  let requestParams :=
    if negb (JSMap.has "type" requestParams)
    then JSMap.set "type" "json" requestParams
    else requestParams in
  let requestParams :=
    if negb (JSMap.has "br" requestParams)
    then JSMap.set "br" "1" requestParams
    else requestParams in
  let requestParams := JSMap.set "n" "1" requestParams in
  if JSMap.has "name" requestParams then
    let name :=
      match JSMap.get "name" requestParams with
      | Some v => v
      | None => "undefined"
      end in
    JSMap.delete "name" (JSMap.set "msg" name requestParams)
  else requestParams.

(** [requestParams] when the query string is built. *)
Definition requestParams (searchParams : Query) : Query :=
  rewrite (copy searchParams).

Definition queryString (searchParams : Query) : string :=
  join_pairs encodeURIComponent (JSMap.entries (requestParams searchParams)).

Definition forwardUrl (searchParams : Query) : string :=
  (TARGET_API_BASE ++ "?" ++ queryString searchParams)%string.

(** Built after [apiData.code] was read, so [apiData] is neither [null] nor
    [undefined]; [musicData] is truthy. *)
Definition finalResponse (apiData musicData : value) : value :=
  VObj [
    ("code", logical_or (prop apiData "code") (VNum 200));
    ("title", logical_or (prop musicData "title") (VStr ""));
    ("singer", logical_or (prop musicData "singer") (VStr ""));
    ("cover", logical_or (prop musicData "cover") (VStr ""));
    ("link", logical_or (prop musicData "link") (VStr ""));
    ("music_url", logical_or (prop musicData "music_url") (VStr ""));
    ("lyric", logical_or (prop musicData "lrc_url") (VStr ""))
  ].

Definition onRequest (engine : Engine) (request : Request) (net : Network) :
    Run Reply :=
  try_catch
    (apiResponse <- fetch_url net (forwardUrl (query request)) ;;
     if negb (ok apiResponse) then
       new_Response engine UpstreamHTTPError 500 [content_type]
         (error_body 500
            ("请求目标API失败: HTTP状态码 "
               ++ number_to_string (api_status apiResponse)))
     else
     apiData <- json apiResponse ;;
     code <- member apiData "code" ;;
     if truthy code && negb (strict_eq_num code 200) then
       new_Response engine UpstreamDomainError 200 [content_type] apiData
     else
     data <- member apiData "data" ;;
     let musicData := logical_or data (VObj []) in
     new_Response engine Success 200 [content_type; allow_origin]
       (finalResponse apiData musicData))
    (fun e =>
       new_Response engine UnhandledInternalError 500 [content_type]
         (error_body 500 ("代理脚本内部错误: " ++ e))).

End Pages.

(** ** The serverless [handler] *)

Module Vercel.

(** [req.query.name] as the host parses the query string: a name given
    once is a string, a name given several times an array. *)
Definition query_name (q : Query) : value :=
  match values_of "name" q with
  | [] => VUndefined
  | [v] => VStr v
  | vs => VArr (map VStr vs)
  end.

(** [{ code, msg }] *)
Definition msg_body (code : Z) (msg : string) : value :=
  VObj [("code", VNum code); ("msg", VStr msg)].

(** The object handed to [res.json] on success. *)
Definition reshaped (data : value) : value :=
  VObj [
    ("code", prop data "code");
    ("title", optional_prop (prop data "data") "title");
    ("singer", optional_prop (prop data "data") "singer");
    ("cover", optional_prop (prop data "data") "cover");
    ("music_url", optional_prop (prop data "data") "music_url");
    ("lyric", optional_prop (prop data "data") "lrc_url")
  ].

(** [res.status(status).json(v)]: serialises [v] and leaves the headers to
    the host. *)
Definition res_json (engine : Engine) (via : Branch) (status : Z) (v : value) :
    Run Reply :=
  new_Response engine via status [] v.

(** The template literal that holds the address is not closed in the source
    (line 8), so the address fetched cannot be read there: [api] is a
    parameter of the run. *)
Definition handler (engine : Engine) (api : string) (req : Request)
    (net : Network) : Run Reply :=
  let name := query_name (query req) in
  if negb (truthy name) then
    res_json engine MissingName 400 (msg_body 400 "缺少 name")
  else
    try_catch
      (response <- fetch_url net api ;;
       data <- json response ;;
       _ <- member data "code" ;;
       res_json engine Success 200 (reshaped data))
      (fun e => res_json engine UnhandledInternalError 500 (msg_body 500 e)).

End Vercel.

(** ** The two proxies that rewrite the query *)

(** The edge worker ([_worker.js]) and the pages function
    ([my-vercel-project/api/music.js]). *)
Inductive Proxy : Type := EdgeWorker | PagesFunction.

(** The mapping a proxy rewrites: the worker rewrites the [searchParams] of
    the request URL in place, the pages function a [Map] filled from them. *)
Definition InboundQuery (d : Proxy) (searchParams : Query) : Query :=
  match d with
  | EdgeWorker => searchParams
  | PagesFunction => Pages.copy searchParams
  end.

(** The names a container holds, in order. *)
Definition keys (m : Query) : list string := map fst m.

(** The parameters sent upstream. *)
Definition UpstreamQuery (d : Proxy) (searchParams : Query) : Query :=
  match d with
  | EdgeWorker => Worker.params searchParams
  | PagesFunction => Pages.requestParams searchParams
  end.

(** [get] and [has] of the container the proxy keeps its parameters in. *)
Definition lookup (d : Proxy) : string -> Query -> option string :=
  match d with
  | EdgeWorker => URLSearchParams.get
  | PagesFunction => JSMap.get
  end.

Definition contains (d : Proxy) : string -> Query -> bool :=
  match d with
  | EdgeWorker => URLSearchParams.has
  | PagesFunction => JSMap.has
  end.

Definition forwarded_url (d : Proxy) (searchParams : Query) : string :=
  match d with
  | EdgeWorker => Worker.forward_url searchParams
  | PagesFunction => Pages.forwardUrl searchParams
  end.

(** The exported entry point. *)
Definition serve (d : Proxy) (engine : Engine) :
    Request -> Network -> Run Reply :=
  match d with
  | EdgeWorker => Worker.fetch engine
  | PagesFunction => Pages.onRequest engine
  end.

(** The requests that reach the pipeline: the worker turns every method but
    GET away, the pages function does not look at the method. *)
Definition accepted (d : Proxy) (request : Request) : Prop :=
  match d with
  | EdgeWorker => method request = "GET"
  | PagesFunction => True
  end.

(** A failure below the upstream's JSON: no response, a status outside
    200-299, or a body that is not JSON. *)
Inductive TransportFailure : Answer -> Prop :=
| connection_failed (e : string) :
    TransportFailure (Unreachable e)
| status_not_ok (r : ApiResponse) :
    ok r = false -> TransportFailure (Received r)
| body_not_json (r : ApiResponse) (e : string) :
    ok r = true -> api_body r = Malformed e -> TransportFailure (Received r).

(** The [code] a proxy reports for a transport failure: 500, except that the
    worker reports the upstream's status when that is outside 200-299. *)
Definition failure_code (d : Proxy) (a : Answer) : Z :=
  match d, a with
  | EdgeWorker, Received r => if ok r then 500%Z else api_status r
  | _, _ => 500%Z
  end.

(** The upstream body and the output of the specification's example. *)
Definition qingtian_upstream : value :=
  VObj [("code", VNum 200);
        ("data", VObj [("title", VStr "晴天");
                       ("lrc_url", VStr "http://x/l.lrc")])].

Definition qingtian_output : value :=
  VObj [("code", VNum 200); ("title", VStr "晴天"); ("singer", VStr "");
        ("cover", VStr ""); ("link", VStr ""); ("music_url", VStr "");
        ("lyric", VStr "http://x/l.lrc")].

(** A response from the upstream with status 200 and JSON [body]. *)
Definition answers (body : value) : Network :=
  fun _ => Received {| api_status := 200; api_body := Json body |}.

(** An engine with room for a hundred levels, for the examples. *)
Definition roomy : Engine := {| room := 100 |}.

(** Following the specification: a text field of the output is the string
    the upstream gave under its name, and the empty string where the upstream
    gave none. *)
Definition text_or_empty (v : value) : value :=
  match v with
  | VStr s => VStr s
  | _ => VStr ""
  end.

(** Following the specification: the NormalizedResult for the fields of the
    upstream's [data]. *)
Definition NormalizedResult (data : list (string * value)) : value :=
  VObj [("code", VNum 200);
        ("title", text_or_empty (own "title" data));
        ("singer", text_or_empty (own "singer" data));
        ("cover", text_or_empty (own "cover" data));
        ("link", text_or_empty (own "link" data));
        ("music_url", text_or_empty (own "music_url" data));
        ("lyric", text_or_empty (own "lrc_url" data))].

(** A field that is a string or is not there. *)
Definition text_or_absent (v : value) : Prop :=
  match v with
  | VStr _ | VUndefined => True
  | _ => False
  end.

(** ** Parameters the rewriting leaves alone *)

(** The names the proxies set, default or rename. *)
Definition rewritten (name : string) : bool :=
  existsb (String.eqb name) ["type"; "br"; "n"; "name"; "msg"].

(** The entries under every other name, in order. *)
Definition untouched (q : Query) : Query :=
  filter (fun p => negb (rewritten (fst p))) q.

(** ** Reading an encoded string back *)

(** The value of a hexadecimal digit as [percent_byte] writes it. *)
Definition unhex (c : ascii) : N :=
  let n := N_of_ascii c in
  if (n <=? 57)%N then (n - 48)%N else (n - 55)%N.

(** The inverse of [percent_encode], by which the encoding is shown to lose
    nothing; the repository itself never decodes. *)
Fixpoint percent_decode (plus_space : bool) (s : string) : string :=
  match s with
  | EmptyString => EmptyString
  | String c rest =>
      if Ascii.eqb c "%" then
        match rest with
        | String high (String low rest') =>
            String (ascii_of_N (16 * unhex high + unhex low))
              (percent_decode plus_space rest')
        | _ => s
        end
      else if plus_space && Ascii.eqb c "+" then
        String " " (percent_decode plus_space rest)
      else String c (percent_decode plus_space rest)
  end.

(** Whether [c] occurs in [s]. *)
Fixpoint mentions (c : ascii) (s : string) : bool :=
  match s with
  | EmptyString => false
  | String c' rest => Ascii.eqb c' c || mentions c rest
  end.

(** The characters an encoded name or value is made of. *)
Definition query_safe (c : ascii) : bool :=
  is_alnum c || one_of "*-._+%!~'()" c.

(** ** The pairs of one name *)

(** Reading a container goes through the pairs it holds under the name asked
    for; the lemmas below say what each update does to those pairs. *)
Definition pairs_of (name : string) (q : Query) : Query :=
  filter (named name) q.

Lemma find_hd_filter {A} (f : A -> bool) (l : list A) :
  find f l = hd_error (filter f l).
Proof.
  induction l as [|a l IH]; simpl; [reflexivity|].
  destruct (f a); simpl; auto.
Qed.

Lemma existsb_filter_nonempty {A} (f : A -> bool) (l : list A) :
  existsb f l = negb (Nat.eqb (List.length (filter f l)) 0).
Proof.
  induction l as [|a l IH]; simpl; [reflexivity|].
  destruct (f a); simpl; auto.
Qed.

Lemma named_refl name value : named name (name, value) = true.
Proof. unfold named; simpl. apply String.eqb_refl. Qed.

Lemma named_other name other p :
  String.eqb other name = false -> named name p = true -> named other p = false.
Proof.
  unfold named. intros Hne Hp. apply String.eqb_eq in Hp. rewrite Hp.
  rewrite String.eqb_sym. exact Hne.
Qed.

Lemma pairs_of_removed name q :
  pairs_of name (filter (fun p => negb (named name p)) q) = [].
Proof.
  unfold pairs_of. induction q as [|p q IH]; simpl; [reflexivity|].
  destruct (named name p) eqn:E; simpl; [exact IH|].
  rewrite E. exact IH.
Qed.

Lemma pairs_of_kept name other q :
  String.eqb other name = false ->
  pairs_of other (filter (fun p => negb (named name p)) q) = pairs_of other q.
Proof.
  intros Hne. unfold pairs_of. induction q as [|p q IH]; simpl; [reflexivity|].
  destruct (named name p) eqn:E; simpl.
  - rewrite (named_other name other p Hne E). exact IH.
  - destruct (named other p); [f_equal|]; exact IH.
Qed.

Lemma delete_absent name q :
  pairs_of name q = [] -> filter (fun p => negb (named name p)) q = q.
Proof.
  unfold pairs_of. induction q as [|p q IH]; simpl; [reflexivity|].
  destruct (named name p); simpl; [discriminate|].
  intros H. f_equal. auto.
Qed.

Lemma has_pairs name q :
  existsb (named name) q = negb (Nat.eqb (List.length (pairs_of name q)) 0).
Proof. apply existsb_filter_nonempty. Qed.

Lemma get_pairs name q :
  option_map snd (find (named name) q) = hd_error (map snd (pairs_of name q)).
Proof.
  rewrite find_hd_filter. unfold pairs_of.
  destruct (filter (named name) q); reflexivity.
Qed.

(** *** [URLSearchParams] *)

Section URLSearchParamsFacts.
Import URLSearchParams.

Lemma usp_has_spec name q :
  has name q = negb (Nat.eqb (List.length (pairs_of name q)) 0).
Proof. apply has_pairs. Qed.

Lemma usp_get_spec name q : get name q = hd_error (map snd (pairs_of name q)).
Proof. apply get_pairs. Qed.

Lemma usp_pairs_of_set_same name value q :
  pairs_of name (set name value q) = [(name, value)].
Proof.
  induction q as [|p q IH]; simpl.
  - unfold pairs_of; simpl. rewrite named_refl. reflexivity.
  - destruct (named name p) eqn:E.
    + change (pairs_of name ((name, value) :: delete name q))
        with (if named name (name, value)
              then (name, value) :: pairs_of name (delete name q)
              else pairs_of name (delete name q)).
      rewrite named_refl. unfold delete.
      rewrite pairs_of_removed. reflexivity.
    + unfold pairs_of in *; simpl. rewrite E. exact IH.
Qed.

Lemma usp_pairs_of_set_other name other value q :
  String.eqb other name = false ->
  pairs_of other (set name value q) = pairs_of other q.
Proof.
  intros Hne. induction q as [|p q IH]; simpl.
  - unfold pairs_of; simpl. unfold named; simpl.
    rewrite String.eqb_sym, Hne. reflexivity.
  - destruct (named name p) eqn:E.
    + unfold pairs_of; simpl.
      rewrite (named_other name other p Hne E).
      unfold named at 1; simpl. rewrite String.eqb_sym, Hne.
      apply (pairs_of_kept name other q Hne).
    + unfold pairs_of in *; simpl.
      destruct (named other p); [f_equal|]; exact IH.
Qed.

Lemma usp_pairs_of_delete_same name q : pairs_of name (delete name q) = [].
Proof. apply pairs_of_removed. Qed.

Lemma usp_pairs_of_delete_other name other q :
  String.eqb other name = false ->
  pairs_of other (delete name q) = pairs_of other q.
Proof. apply pairs_of_kept. Qed.

(** Setting a name to the one value it already has changes nothing. *)
Lemma usp_set_fixed name value q :
  pairs_of name q = [(name, value)] -> set name value q = q.
Proof.
  induction q as [|p q IH]; simpl.
  - unfold pairs_of; simpl. discriminate.
  - unfold pairs_of; simpl. destruct (named name p) eqn:E.
    + intros H. injection H as Hp Hrest. subst p.
      f_equal. apply delete_absent. exact Hrest.
    + intros H. f_equal. apply IH. exact H.
Qed.

End URLSearchParamsFacts.

(** *** [Map] *)

Section JSMapFacts.
Import JSMap.

Lemma map_has_spec key m :
  has key m = negb (Nat.eqb (List.length (pairs_of key m)) 0).
Proof. apply has_pairs. Qed.

Lemma map_get_spec key m : get key m = hd_error (map snd (pairs_of key m)).
Proof. apply get_pairs. Qed.

Lemma map_pairs_of_set_same key value m :
  pairs_of key (set key value m) = (key, value) :: tl (pairs_of key m).
Proof.
  induction m as [|p m IH]; simpl.
  - unfold pairs_of; simpl. rewrite named_refl. reflexivity.
  - destruct (named key p) eqn:E.
    + unfold pairs_of; simpl. rewrite named_refl. reflexivity.
    + unfold pairs_of in *; simpl. rewrite E. exact IH.
Qed.

Lemma map_pairs_of_set_other key other value m :
  String.eqb other key = false ->
  pairs_of other (set key value m) = pairs_of other m.
Proof.
  intros Hne. induction m as [|p m IH]; simpl.
  - unfold pairs_of; simpl. unfold named; simpl.
    rewrite String.eqb_sym, Hne. reflexivity.
  - destruct (named key p) eqn:E.
    + unfold pairs_of; simpl.
      rewrite (named_other key other p Hne E).
      unfold named at 1; simpl. rewrite String.eqb_sym, Hne. reflexivity.
    + unfold pairs_of in *; simpl.
      destruct (named other p); [f_equal|]; exact IH.
Qed.

Lemma map_pairs_of_delete_same key m : pairs_of key (delete key m) = [].
Proof. apply pairs_of_removed. Qed.

Lemma map_pairs_of_delete_other key other m :
  String.eqb other key = false ->
  pairs_of other (delete key m) = pairs_of other m.
Proof. apply pairs_of_kept. Qed.

(** Setting a key to the value [get] already finds changes nothing. *)
Lemma map_set_fixed key value m :
  get key m = Some value -> set key value m = m.
Proof.
  unfold get. induction m as [|p m IH]; simpl; [discriminate|].
  destruct (named key p) eqn:E; simpl.
  - intros H. injection H as H. destruct p as [k v]; simpl in *. subst v.
    unfold named in E; simpl in E. apply String.eqb_eq in E. subst k.
    reflexivity.
  - intros H. f_equal. auto.
Qed.

End JSMapFacts.

(** ** The parameters sent upstream, name by name *)

Ltac push_pairs :=
  repeat first
    [ rewrite usp_pairs_of_set_same
    | rewrite map_pairs_of_set_same
    | rewrite usp_pairs_of_delete_same
    | rewrite map_pairs_of_delete_same
    | rewrite usp_pairs_of_set_other
        by (reflexivity || assumption)
    | rewrite map_pairs_of_set_other by (reflexivity || assumption)
    | rewrite usp_pairs_of_delete_other
        by (reflexivity || assumption)
    | rewrite map_pairs_of_delete_other
        by (reflexivity || assumption) ].

Ltac by_pairs :=
  repeat rewrite ?usp_has_spec, ?usp_get_spec,
    ?map_has_spec, ?map_get_spec in *.

Section WorkerFacts.
Import URLSearchParams.

Lemma worker_params_type q : pairs_of "type" (Worker.params q) = [("type", "json")].
Proof.
  unfold Worker.params.
  repeat match goal with |- context [if ?c then _ else _] => destruct c end;
    push_pairs; reflexivity.
Qed.

Lemma worker_params_n q : pairs_of "n" (Worker.params q) = [("n", "1")].
Proof.
  unfold Worker.params.
  repeat match goal with |- context [if ?c then _ else _] => destruct c end;
    push_pairs; reflexivity.
Qed.

Lemma worker_params_br q :
  pairs_of "br" (Worker.params q) =
  if has "br" q then pairs_of "br" q else [("br", "1")].
Proof.
  unfold Worker.params.
  replace (has "br" (set "type" "json" q)) with (has "br" q)
    by (by_pairs; push_pairs; reflexivity).
  destruct (has "br" q); simpl;
    match goal with |- context [if ?c then _ else _] => destruct c end;
    push_pairs; reflexivity.
Qed.

Lemma worker_params_name q : pairs_of "name" (Worker.params q) = [].
Proof.
  unfold Worker.params.
  match goal with |- context [if has "name" ?p then _ else _] =>
    destruct (has "name" p) eqn:E end.
  - push_pairs. reflexivity.
  - by_pairs. destruct (pairs_of "name" _); [reflexivity | discriminate].
Qed.

Lemma worker_params_msg q :
  pairs_of "msg" (Worker.params q) =
  match get "name" q with
  | Some X => [("msg", X)]
  | None => pairs_of "msg" q
  end.
Proof.
  unfold Worker.params.
  set (p2 := if negb (has "br" (set "type" "json" q)) then _ else _).
  assert (Hname : pairs_of "name" (set "n" "1" p2) = pairs_of "name" q).
  { subst p2. destruct (negb _); push_pairs; reflexivity. }
  assert (Hmsg : pairs_of "msg" (set "n" "1" p2) = pairs_of "msg" q).
  { subst p2. destruct (negb _); push_pairs; reflexivity. }
  by_pairs. rewrite Hname.
  destruct (pairs_of "name" q) as [|[k v] rest]; simpl.
  - exact Hmsg.
  - push_pairs. reflexivity.
Qed.

(** Every other parameter passes through. *)
Lemma worker_params_other name q :
  String.eqb name "type" = false -> String.eqb name "br" = false ->
  String.eqb name "n" = false -> String.eqb name "name" = false ->
  String.eqb name "msg" = false ->
  pairs_of name (Worker.params q) = pairs_of name q.
Proof.
  intros. unfold Worker.params.
  repeat match goal with |- context [if ?c then _ else _] => destruct c end;
    push_pairs; reflexivity.
Qed.

End WorkerFacts.

Section PagesFacts.
Import JSMap.

Lemma pages_rewrite_type m :
  pairs_of "type" (Pages.rewrite m) =
  if has "type" m then pairs_of "type" m else [("type", "json")].
Proof.
  unfold Pages.rewrite.
  destruct (has "type" m) eqn:E; simpl;
    repeat match goal with |- context [if ?c then _ else _] => destruct c end;
    push_pairs; try reflexivity;
    by_pairs; destruct (pairs_of "type" m); try discriminate; reflexivity.
Qed.

Lemma pages_rewrite_br m :
  pairs_of "br" (Pages.rewrite m) =
  if has "br" m then pairs_of "br" m else [("br", "1")].
Proof.
  unfold Pages.rewrite.
  set (m1 := if negb (has "type" m) then _ else _).
  assert (H1 : pairs_of "br" m1 = pairs_of "br" m).
  { subst m1. destruct (negb _); push_pairs; reflexivity. }
  assert (H2 : has "br" m1 = has "br" m).
  { by_pairs. rewrite H1. reflexivity. }
  rewrite H2. clear H2.
  destruct (has "br" m) eqn:E; simpl;
    repeat match goal with |- context [if ?c then _ else _] => destruct c end;
    push_pairs; rewrite ?H1; try reflexivity;
    by_pairs; destruct (pairs_of "br" m); try discriminate; reflexivity.
Qed.

Lemma pages_rewrite_n m :
  pairs_of "n" (Pages.rewrite m) = ("n", "1") :: tl (pairs_of "n" m).
Proof.
  unfold Pages.rewrite.
  repeat match goal with |- context [if ?c then _ else _] => destruct c end;
    push_pairs; reflexivity.
Qed.

Lemma pages_rewrite_name m : pairs_of "name" (Pages.rewrite m) = [].
Proof.
  unfold Pages.rewrite.
  match goal with |- context [if has "name" ?p then _ else _] =>
    destruct (has "name" p) eqn:E end.
  - push_pairs. reflexivity.
  - by_pairs. destruct (pairs_of "name" _); [reflexivity | discriminate].
Qed.

Lemma pages_rewrite_msg m :
  pairs_of "msg" (Pages.rewrite m) =
  match get "name" m with
  | Some X => ("msg", X) :: tl (pairs_of "msg" m)
  | None => pairs_of "msg" m
  end.
Proof.
  unfold Pages.rewrite.
  set (m2 := if negb (has "br" _) then _ else _).
  assert (Hname : pairs_of "name" (set "n" "1" m2) = pairs_of "name" m).
  { subst m2.
    repeat match goal with |- context [if ?c then _ else _] => destruct c end;
      push_pairs; reflexivity. }
  assert (Hmsg : pairs_of "msg" (set "n" "1" m2) = pairs_of "msg" m).
  { subst m2.
    repeat match goal with |- context [if ?c then _ else _] => destruct c end;
      push_pairs; reflexivity. }
  by_pairs. rewrite Hname.
  destruct (pairs_of "name" m) as [|[k v] rest]; simpl.
  - exact Hmsg.
  - rewrite map_pairs_of_delete_other by reflexivity.
    rewrite map_pairs_of_set_same, Hmsg. reflexivity.
Qed.

Lemma pages_rewrite_other key m :
  String.eqb key "type" = false -> String.eqb key "br" = false ->
  String.eqb key "n" = false -> String.eqb key "name" = false ->
  String.eqb key "msg" = false ->
  pairs_of key (Pages.rewrite m) = pairs_of key m.
Proof.
  intros. unfold Pages.rewrite.
  repeat match goal with |- context [if ?c then _ else _] => destruct c end;
    push_pairs; reflexivity.
Qed.

(** Rewriting a map that was already rewritten changes nothing. *)
Lemma pages_rewrite_rewrite m : Pages.rewrite (Pages.rewrite m) = Pages.rewrite m.
Proof.
  set (m' := Pages.rewrite m).
  assert (Htype : has "type" m' = true).
  { by_pairs. subst m'. rewrite pages_rewrite_type. by_pairs.
    destruct (pairs_of "type" m); reflexivity. }
  assert (Hbr : has "br" m' = true).
  { by_pairs. subst m'. rewrite pages_rewrite_br. by_pairs.
    destruct (pairs_of "br" m); reflexivity. }
  assert (Hn : get "n" m' = Some "1").
  { by_pairs. subst m'. rewrite pages_rewrite_n. reflexivity. }
  assert (Hname : has "name" m' = false).
  { by_pairs. subst m'. rewrite pages_rewrite_name. reflexivity. }
  unfold Pages.rewrite at 1. fold m'.
  rewrite Htype. simpl. rewrite Hbr. simpl.
  rewrite (map_set_fixed "n" "1" m' Hn).
  rewrite Hname. reflexivity.
Qed.

End PagesFacts.

(** ** A [Map] holds each key once *)

Section MapKeys.
Import JSMap.

Lemma has_false_not_In key m : has key m = false -> ~ In key (keys m).
Proof.
  unfold has, keys. induction m as [|[k v] m IH]; simpl; [tauto|].
  unfold named at 1; simpl.
  destruct (String.eqb k key) eqn:E; simpl; [discriminate|].
  intros H [Hk | Hin]; [|exact (IH H Hin)].
  subst k. rewrite String.eqb_refl in E. discriminate.
Qed.

Lemma not_In_has_false key m : ~ In key (keys m) -> has key m = false.
Proof.
  unfold has, keys. induction m as [|[k v] m IH]; simpl; [reflexivity|].
  intros H. unfold named at 1; simpl.
  destruct (String.eqb k key) eqn:E; simpl.
  - apply String.eqb_eq in E. tauto.
  - apply IH. tauto.
Qed.

Lemma set_absent key value m :
  has key m = false -> set key value m = m ++ [(key, value)].
Proof.
  unfold has. induction m as [|p m IH]; simpl; [reflexivity|].
  destruct (named key p); simpl; [discriminate|].
  intros H. f_equal. auto.
Qed.

Lemma keys_set_present key value m :
  has key m = true -> keys (set key value m) = keys m.
Proof.
  unfold has, keys. induction m as [|[k v] m IH]; simpl; [discriminate|].
  destruct (named key (k, v)) eqn:E; simpl.
  - intros _. unfold named in E; simpl in E. apply String.eqb_eq in E.
    subst k. reflexivity.
  - intros H. f_equal. auto.
Qed.

Lemma set_keys key value m : NoDup (keys m) -> NoDup (keys (set key value m)).
Proof.
  intros Hm. destruct (has key m) eqn:E.
  - rewrite keys_set_present by exact E. exact Hm.
  - rewrite set_absent by exact E. unfold keys. rewrite map_app. simpl.
    apply NoDup_app; [exact Hm | repeat constructor; simpl; tauto |].
    intros k Hk [Heq | []]. subst k.
    exact (has_false_not_In key m E Hk).
Qed.

Lemma delete_keys key m : NoDup (keys m) -> NoDup (keys (delete key m)).
Proof.
  unfold keys, delete. induction m as [|p m IH]; simpl; [auto|].
  intros H. inversion H as [|? ? Hnotin Hrest]; subst.
  destruct (negb (named key p)); simpl; [|auto].
  constructor; [|auto].
  intros Hin. apply Hnotin.
  apply in_map_iff in Hin. destruct Hin as [x [Hx Hf]].
  apply filter_In in Hf. apply in_map_iff. exists x. tauto.
Qed.

Lemma fold_set_keys l acc :
  NoDup (keys acc) ->
  NoDup (keys (fold_left (fun m p => set (fst p) (snd p) m) l acc)).
Proof.
  revert acc. induction l as [|p l IH]; simpl; intros acc H; [exact H|].
  apply IH. apply set_keys. exact H.
Qed.

Lemma copy_keys searchParams : NoDup (keys (Pages.copy searchParams)).
Proof. apply fold_set_keys. constructor. Qed.

Lemma rewrite_keys m : NoDup (keys m) -> NoDup (keys (Pages.rewrite m)).
Proof.
  intros H. unfold Pages.rewrite.
  repeat match goal with |- context [if ?c then _ else _] => destruct c end;
    repeat first [apply delete_keys | apply set_keys]; exact H.
Qed.

Lemma fold_set_fixed l acc :
  NoDup (keys (acc ++ l)) ->
  fold_left (fun m p => set (fst p) (snd p) m) l acc = acc ++ l.
Proof.
  revert acc. induction l as [|[k v] l IH]; simpl; intros acc H.
  - symmetry. apply app_nil_r.
  - assert (Habsent : has k acc = false).
    { apply not_In_has_false. unfold keys in *. rewrite map_app in H.
      simpl in H. apply NoDup_remove_2 in H.
      intros Hin. apply H. apply in_or_app. left. exact Hin. }
    rewrite (set_absent k v acc Habsent).
    rewrite IH; rewrite <- app_assoc; simpl; [reflexivity | exact H].
Qed.

(** Copying the entries of a map gives the map back. *)
Lemma copy_fixed m : NoDup (keys m) -> Pages.copy m = m.
Proof. intros H. apply (fold_set_fixed m []). exact H. Qed.

(** Where a name is repeated, the copy keeps its last value, while
    [URLSearchParams.get] reads its first. *)
Example copy_keeps_last :
  Pages.copy [("name", "a"); ("x", "1"); ("name", "b")]
    = [("name", "b"); ("x", "1")]
  /\ URLSearchParams.get "name" [("name", "a"); ("x", "1"); ("name", "b")]
    = Some "a".
Proof. split; reflexivity. Qed.

End MapKeys.

(** ** Rewriting twice *)

Lemma Worker_params_params q : Worker.params (Worker.params q) = Worker.params q.
Proof.
  set (P := Worker.params q).
  assert (Htype : URLSearchParams.set "type" "json" P = P).
  { apply usp_set_fixed. apply worker_params_type. }
  assert (Hbr : URLSearchParams.has "br" P = true).
  { by_pairs. subst P. rewrite worker_params_br. by_pairs.
    destruct (pairs_of "br" q); reflexivity. }
  assert (Hn : URLSearchParams.set "n" "1" P = P).
  { apply usp_set_fixed. apply worker_params_n. }
  assert (Hname : URLSearchParams.has "name" P = false).
  { by_pairs. subst P. rewrite worker_params_name. reflexivity. }
  unfold Worker.params at 1. fold P.
  rewrite Htype, Hbr. simpl. rewrite Hn, Hname. reflexivity.
Qed.

Lemma Pages_requestParams_requestParams q :
  Pages.requestParams (Pages.requestParams q) = Pages.requestParams q.
Proof.
  unfold Pages.requestParams.
  rewrite (copy_fixed (Pages.rewrite (Pages.copy q))).
  - apply pages_rewrite_rewrite.
  - apply rewrite_keys, copy_keys.
Qed.

(** ** What the copy keeps of a repeated name *)

Lemma fold_set_get_last key l acc :
  JSMap.get key (fold_left (fun m p => JSMap.set (fst p) (snd p) m) l acc) =
  match rev (values_of key l) with
  | last :: _ => Some last
  | [] => JSMap.get key acc
  end.
Proof.
  revert acc. induction l as [|[k v] l IH]; intros acc; simpl; [reflexivity|].
  rewrite IH. unfold values_of. simpl.
  destruct (named key (k, v)) eqn:E; simpl.
  - unfold named in E; simpl in E. apply String.eqb_eq in E. subst k.
    destruct (rev (map snd (filter (named key) l))); simpl; [|reflexivity].
    rewrite map_get_spec, map_pairs_of_set_same. reflexivity.
  - destruct (rev (map snd (filter (named key) l))); [|reflexivity].
    rewrite !map_get_spec, map_pairs_of_set_other; [reflexivity|].
    unfold named in E; simpl in E. rewrite String.eqb_sym. exact E.
Qed.

Lemma copy_get_last key searchParams :
  JSMap.get key (Pages.copy searchParams) =
  hd_error (rev (values_of key searchParams)).
Proof.
  unfold Pages.copy, URLSearchParams.entries. rewrite fold_set_get_last.
  destruct (rev (values_of key searchParams)); reflexivity.
Qed.

(** ** The Parameter Normalizer *)

(** C4. Where the inbound query holds [name] with value [X], the upstream
    query holds [msg] with value [X] and no [name]. *)
Theorem name_is_sent_as_msg (d : Proxy) (searchParams : Query) (X : string) :
  lookup d "name" (InboundQuery d searchParams) = Some X ->
  lookup d "msg" (UpstreamQuery d searchParams) = Some X /\
  contains d "name" (UpstreamQuery d searchParams) = false /\
  ~ In "name" (keys (UpstreamQuery d searchParams)).
Proof.
  intros H.
  assert (Hname : contains d "name" (UpstreamQuery d searchParams) = false).
  { destruct d; simpl; by_pairs.
    - rewrite worker_params_name. reflexivity.
    - unfold Pages.requestParams. rewrite pages_rewrite_name. reflexivity. }
  split; [|split; [exact Hname|]].
  - destruct d; simpl in *.
    + rewrite usp_get_spec, worker_params_msg, H.
      reflexivity.
    + unfold Pages.requestParams.
      rewrite map_get_spec, pages_rewrite_msg, H. reflexivity.
  - apply has_false_not_In. destruct d; exact Hname.
Qed.

Lemma name_is_sent_as_msg_witness :
  lookup EdgeWorker "msg"
    (UpstreamQuery EdgeWorker [("name", "周杰伦-晴天"); ("br", "5")])
    = Some "周杰伦-晴天"
  /\ lookup PagesFunction "msg"
    (UpstreamQuery PagesFunction [("name", "周杰伦-晴天"); ("br", "5")])
    = Some "周杰伦-晴天".
Proof.
  split.
  - apply (name_is_sent_as_msg EdgeWorker
             [("name", "周杰伦-晴天"); ("br", "5")] "周杰伦-晴天").
    reflexivity.
  - apply (name_is_sent_as_msg PagesFunction
             [("name", "周杰伦-晴天"); ("br", "5")] "周杰伦-晴天").
    reflexivity.
Defined.

(** C5. The upstream query holds [n] = 1 whatever the caller sent; its [br]
    is 1 where the caller's query holds no [br], and otherwise the caller's
    [br] (of a [br] given several times the worker reads the first and the
    pages function the last). *)
Theorem n_is_forced_and_br_defaulted (d : Proxy) (searchParams : Query) :
  lookup d "n" (UpstreamQuery d searchParams) = Some "1" /\
  lookup d "br" (UpstreamQuery d searchParams) =
    match
      match d with
      | EdgeWorker => hd_error (values_of "br" searchParams)
      | PagesFunction => hd_error (rev (values_of "br" searchParams))
      end
    with
    | Some br => Some br
    | None => Some "1"
    end.
Proof.
  destruct d; simpl; unfold Pages.requestParams; split.
  - rewrite usp_get_spec, worker_params_n. reflexivity.
  - rewrite usp_get_spec, worker_params_br, usp_has_spec.
    unfold values_of. fold (pairs_of "br" searchParams).
    destruct (pairs_of "br" searchParams); reflexivity.
  - rewrite map_get_spec, pages_rewrite_n. reflexivity.
  - rewrite <- copy_get_last.
    rewrite !map_get_spec, pages_rewrite_br, map_has_spec.
    destruct (pairs_of "br" (Pages.copy searchParams)); reflexivity.
Qed.

(** The example of the specification: [br] = 5 stays, a missing [br]
    becomes 1, a caller's [n] does not survive. *)
Example br_5_stays (d : Proxy) :
  lookup d "br" (UpstreamQuery d [("name", "x"); ("br", "5"); ("n", "9")])
    = Some "5"
  /\ lookup d "n" (UpstreamQuery d [("name", "x"); ("br", "5"); ("n", "9")])
    = Some "1"
  /\ lookup d "br" (UpstreamQuery d [("name", "x")]) = Some "1".
Proof. destruct d; repeat split; reflexivity. Qed.

(** C6. The Parameter Normalizer is idempotent: rewriting its own output
    gives that output again. *)
Theorem normalizer_is_idempotent (d : Proxy) (searchParams : Query) :
  UpstreamQuery d (UpstreamQuery d searchParams) = UpstreamQuery d searchParams.
Proof.
  destruct d; simpl.
  - apply Worker_params_params.
  - apply Pages_requestParams_requestParams.
Qed.

(** ** Running the handlers *)

(** A flat body always serialises. *)
Lemma stringify_error_body engine code error_msg :
  stringify_throws engine (error_body code error_msg) = false.
Proof. reflexivity. Qed.

Lemma stringify_msg_body engine code msg :
  stringify_throws engine (Vercel.msg_body code msg) = false.
Proof. reflexivity. Qed.

Ltac unfold_run :=
  unfold serve, Worker.fetch, Worker.handleRequest, Pages.onRequest,
    Vercel.handler, Vercel.res_json, new_Response, JSON_stringify,
    try_catch, try_or_return, bind, fetch_url, json, member,
    ret, throw, outcome, fetched.

Ltac flat_bodies :=
  rewrite ?stringify_error_body, ?stringify_msg_body; simpl.

Ltac split_ifs :=
  flat_bodies;
  repeat (match goal with
          | |- context [if ?c then _ else _] => destruct c eqn:?; simpl
          end; flat_bodies).

(** Follows a run through the answer of the network, the status, the body
    and the tests on the parsed body. *)
Ltac walk :=
  flat_bodies;
  match goal with
  | |- context [match ?net ?url with Unreachable _ => _ | Received _ => _ end] =>
      let r := fresh "r" in
      destruct (net url) as [? | r] eqn:?; simpl;
      [ | destruct (ok r) eqn:?; simpl;
          [ destruct (api_body r) as [? | ?] eqn:?; simpl | ] ]
  end; split_ifs.

(** ** The Response Normalizer *)

(** C9, as the code has it. Every reply of the worker and of the pages
    function carries [Content-Type: application/json; charset=utf-8], and the
    reshaped success reply carries [Access-Control-Allow-Origin: *]. *)
Theorem every_reply_is_json (d : Proxy) (engine : Engine) (request : Request)
    (net : Network) :
  exists reply,
    outcome (serve d engine request net) = Normal reply /\
    In content_type (headers reply) /\
    (via reply = Success -> In allow_origin (headers reply)).
Proof.
  destruct d; unfold_run.
  - destruct (String.eqb (method request) "GET"); simpl.
    + walk; eexists; (split; [reflexivity|]); simpl;
        (split; [auto | intros; try discriminate; auto]).
    + flat_bodies. eexists; (split; [reflexivity|]); simpl;
        (split; [auto | intros; discriminate]).
  - walk; eexists; (split; [reflexivity|]); simpl;
      (split; [auto | intros; try discriminate; auto]).
Qed.

Lemma every_reply_is_json_witness :
  exists reply,
    outcome (serve EdgeWorker roomy {| method := "GET"; query := [("name", "晴天")] |}
               (answers qingtian_upstream)) = Normal reply /\
    In allow_origin (headers reply).
Proof.
  destruct (every_reply_is_json EdgeWorker roomy
              {| method := "GET"; query := [("name", "晴天")] |}
              (answers qingtian_upstream)) as [reply [Hrun [_ Hcors]]].
  exists reply. split; [exact Hrun|].
  apply Hcors. vm_compute in Hrun. injection Hrun as <-. reflexivity.
Defined.

(** C9 as stated fails: the pass-through of an upstream error, the reply to
    a connection failure and the reply to another method than GET carry no
    [Access-Control-Allow-Origin]. *)
Lemma error_replies_lack_allow_origin :
  (exists reply,
     outcome (serve EdgeWorker roomy {| method := "GET"; query := [("name", "x")] |}
                (answers (VObj [("code", VNum 404); ("msg", VStr "not found")])))
       = Normal reply /\
     via reply = UpstreamDomainError /\ ~ In allow_origin (headers reply))
  /\ (exists reply,
     outcome (serve PagesFunction roomy {| method := "GET"; query := [("name", "x")] |}
                (fun _ => Unreachable "connection refused"))
       = Normal reply /\
     via reply = UnhandledInternalError /\ ~ In allow_origin (headers reply))
  /\ (exists reply,
     outcome (serve EdgeWorker roomy {| method := "POST"; query := [("name", "x")] |}
                (answers qingtian_upstream))
       = Normal reply /\
     via reply = MethodNotAllowed /\ ~ In allow_origin (headers reply)).
Proof.
  repeat split; eexists; (split; [reflexivity|]);
    (split; [reflexivity|]); simpl; intros [H | []]; discriminate H.
Qed.

(** C7, as the code has it. On a transport failure (no connection, a status
    outside 200-299, a body that is not JSON) the worker and the pages
    function reply with status 500 and a body [{code, error_msg}]; [code] is
    500, except that the worker puts the upstream's status there when that
    status is outside 200-299. *)
Theorem transport_failure_is_reported (d : Proxy) (engine : Engine)
    (request : Request) (net : Network) :
  accepted d request ->
  TransportFailure (net (forwarded_url d (query request))) ->
  exists reply error_msg,
    outcome (serve d engine request net) = Normal reply /\
    status reply = 500%Z /\
    payload reply =
      error_body (failure_code d (net (forwarded_url d (query request))))
        error_msg.
Proof.
  intros Hacc Hfail.
  destruct d; simpl in Hacc, Hfail |- *; unfold_run; try rewrite Hacc; simpl;
    flat_bodies;
    match goal with
    | |- context [match ?net ?url with Unreachable _ => _ | Received _ => _ end] =>
        destruct (net url) as [e | r] eqn:Hnet
    end; simpl; flat_bodies;
    try (do 2 eexists; repeat split; reflexivity);
    inversion Hfail as [ | ? Hok | ? e Hok Hbody]; subst;
    rewrite Hok; simpl; try rewrite Hbody; simpl; flat_bodies;
    do 2 eexists; repeat split; reflexivity.
Qed.

Lemma transport_failure_is_reported_witness :
  TransportFailure (Unreachable "connection refused") /\
  exists reply error_msg,
    outcome (serve PagesFunction roomy {| method := "GET"; query := [("name", "x")] |}
               (fun _ => Unreachable "connection refused")) = Normal reply /\
    status reply = 500%Z /\
    payload reply = error_body 500 error_msg.
Proof.
  split; [constructor|].
  apply (transport_failure_is_reported PagesFunction roomy
           {| method := "GET"; query := [("name", "x")] |}
           (fun _ => Unreachable "connection refused")).
  - exact I.
  - constructor.
Defined.

(** C7 as stated fails: for an upstream status 404 the worker replies with
    status 500 and [code] 404 in the body. *)
Lemma worker_reports_upstream_status :
  TransportFailure
    (Received {| api_status := 404; api_body := Json VNull |}) /\
  exists reply,
    outcome (serve EdgeWorker roomy {| method := "GET"; query := [("name", "x")] |}
               (fun _ => Received {| api_status := 404; api_body := Json VNull |}))
      = Normal reply /\
    status reply = 500%Z /\
    payload reply = error_body 404 "请求目标API失败: HTTP状态码 404" /\
    forall error_msg, payload reply <> error_body 500 error_msg.
Proof.
  split; [apply status_not_ok; reflexivity|].
  eexists. split; [reflexivity|]. simpl. repeat split.
  intros error_msg H. discriminate H.
Qed.

(** ** Depth and serialisation *)

Lemma stringify_flat engine v :
  Nat.pred (depth v) = 0 -> stringify_throws engine v = false.
Proof. unfold stringify_throws. intros ->. reflexivity. Qed.

Lemma stringify_no_deeper engine v w :
  Nat.pred (depth w) <= Nat.pred (depth v) ->
  stringify_throws engine v = false -> stringify_throws engine w = false.
Proof.
  unfold stringify_throws. intros Hle Hv.
  apply negb_false_iff in Hv. apply Nat.leb_le in Hv.
  apply negb_false_iff. apply Nat.leb_le. lia.
Qed.

Lemma depth_own key fields :
  depth (own key fields) <= Nat.pred (depth (VObj fields)).
Proof.
  unfold own. simpl. induction fields as [|[k x] fields IH]; simpl; [lia|].
  destruct (String.eqb k key); simpl; lia.
Qed.

Lemma depth_prop v key : depth (prop v key) <= Nat.pred (depth v).
Proof.
  destruct v; simpl; try lia.
  - destruct (String.eqb key "link"); simpl; lia.
  - apply (depth_own key fields).
Qed.

Lemma depth_nullish_coalesce a b :
  depth (nullish_coalesce a b) <= Nat.max (depth a) (depth b).
Proof. unfold nullish_coalesce. destruct (nullish a); lia. Qed.

Lemma depth_logical_or a b :
  depth (logical_or a b) <= Nat.max (depth a) (depth b).
Proof. unfold logical_or. destruct (truthy a); lia. Qed.

(** What a proxy builds from a body is nested no deeper than the body. *)
Lemma final_response_no_deeper api_data :
  Nat.pred (depth (Worker.final_response api_data
                     (logical_or (prop api_data "data") (VObj []))))
    <= Nat.pred (depth api_data)
  /\ Nat.pred (depth (Pages.finalResponse api_data
                        (logical_or (prop api_data "data") (VObj []))))
    <= Nat.pred (depth api_data).
Proof.
  set (music := logical_or (prop api_data "data") (VObj [])).
  assert (Hmusic : Nat.pred (depth music) <= Nat.pred (Nat.pred (depth api_data))).
  { subst music. pose proof (depth_prop api_data "data").
    unfold logical_or. destruct (truthy (prop api_data "data")); simpl; lia. }
  pose proof (depth_prop api_data "code") as Hcode.
  assert (Hfield : forall key, depth (prop music key) <= Nat.pred (depth api_data)).
  { intros key. pose proof (depth_prop music key). lia. }
  split; simpl;
    repeat match goal with
           | |- context [depth (nullish_coalesce ?a ?b)] =>
               pose proof (depth_nullish_coalesce a b);
               generalize dependent (depth (nullish_coalesce a b)); intros
           | |- context [depth (logical_or ?a ?b)] =>
               pose proof (depth_logical_or a b);
               generalize dependent (depth (logical_or a b)); intros
           end;
    pose proof (Hfield "title"); pose proof (Hfield "singer");
    pose proof (Hfield "cover"); pose proof (Hfield "link");
    pose proof (Hfield "music_url"); pose proof (Hfield "lrc_url");
    simpl in *; lia.
Qed.

(** ** The reshaped success *)

Lemma text_or_empty_coalesce v :
  text_or_absent v ->
  nullish_coalesce v (VStr "") = text_or_empty v /\
  logical_or v (VStr "") = text_or_empty v.
Proof.
  destruct v; simpl; try contradiction; intros _; split; try reflexivity.
  unfold logical_or. simpl. destruct (String.eqb_spec s ""); subst; reflexivity.
Qed.

Lemma depth_text_or_empty v : depth (text_or_empty v) = 0.
Proof. destruct v; reflexivity. Qed.

(** C1, for the worker and the pages function. Where the upstream body has
    [code] 200 and its [data] holds each of [title], [singer], [cover],
    [link], [music_url] and [lrc_url] as a string or not at all, the reply is
    the NormalizedResult with status 200: the five same-named fields pass
    through, [lyric] is [data.lrc_url], and a field that is not there is the
    empty string. *)
Theorem success_is_reshaped (d : Proxy) (engine : Engine) (request : Request)
    (net : Network) (r : ApiResponse) (body : value)
    (data : list (string * value)) :
  accepted d request ->
  net (forwarded_url d (query request)) = Received r ->
  ok r = true ->
  api_body r = Json body ->
  prop body "code" = VNum 200 ->
  prop body "data" = VObj data ->
  (forall key,
     In key ["title"; "singer"; "cover"; "link"; "music_url"; "lrc_url"] ->
     text_or_absent (own key data)) ->
  serve d engine request net =
    ([forwarded_url d (query request)],
     Normal {| via := Success; status := 200;
               headers := [content_type; allow_origin];
               payload := NormalizedResult data |}).
Proof.
  intros Hacc Hnet Hok Hbody Hcode Hdata Htext.
  assert (Hnull : nullish body = false).
  { destruct body; simpl in Hcode; try discriminate; reflexivity. }
  assert (Hfields :
            Worker.final_response body (VObj data) = NormalizedResult data /\
            Pages.finalResponse body (VObj data) = NormalizedResult data).
  { unfold Worker.final_response, Pages.finalResponse, NormalizedResult.
    rewrite Hcode. simpl.
    destruct (text_or_empty_coalesce _ (Htext "title" ltac:(simpl; tauto))) as [-> ->].
    destruct (text_or_empty_coalesce _ (Htext "singer" ltac:(simpl; tauto))) as [-> ->].
    destruct (text_or_empty_coalesce _ (Htext "cover" ltac:(simpl; tauto))) as [-> ->].
    destruct (text_or_empty_coalesce _ (Htext "link" ltac:(simpl; tauto))) as [-> ->].
    destruct (text_or_empty_coalesce _ (Htext "music_url" ltac:(simpl; tauto))) as [-> ->].
    destruct (text_or_empty_coalesce _ (Htext "lrc_url" ltac:(simpl; tauto))) as [-> ->].
    split; reflexivity. }
  assert (Hflat : stringify_throws engine (NormalizedResult data) = false).
  { apply stringify_flat. unfold NormalizedResult. cbn [depth fold_right].
    rewrite !depth_text_or_empty. reflexivity. }
  destruct Hfields as [Hworker Hpages].
  destruct d; simpl in Hacc, Hnet; unfold_run; try rewrite Hacc; simpl;
    rewrite Hnet, Hok; simpl; rewrite Hbody, Hnull, Hcode, Hdata; simpl;
    unfold logical_or; simpl;
    rewrite ?Hworker, ?Hpages, Hflat; reflexivity.
Qed.

Lemma success_is_reshaped_witness :
  accepted EdgeWorker {| method := "GET"; query := [("name", "晴天")] |} /\
  serve EdgeWorker roomy {| method := "GET"; query := [("name", "晴天")] |}
    (answers qingtian_upstream)
  = (["http://music-proxy.dc1.de5.net/?type=json&br=1&n=1&msg=%E6%99%B4%E5%A4%A9"],
     Normal {| via := Success; status := 200;
               headers := [content_type; allow_origin];
               payload := qingtian_output |}).
Proof.
  split; [reflexivity|].
  apply (success_is_reshaped EdgeWorker roomy
           {| method := "GET"; query := [("name", "晴天")] |}
           (answers qingtian_upstream)
           {| api_status := 200; api_body := Json qingtian_upstream |}
           qingtian_upstream
           [("title", VStr "晴天"); ("lrc_url", VStr "http://x/l.lrc")]);
    try reflexivity.
  intros key Hkey. simpl in Hkey.
  repeat (destruct Hkey as [<- | Hkey]; [exact I|]). contradiction.
Defined.

(** C1 as stated fails for the serverless handler: whatever address it
    fetches, it has no [link], and a field the upstream left out stays
    [undefined] instead of becoming the empty string. *)
Lemma handler_applies_no_defaults :
  (forall engine api,
     outcome (Vercel.handler engine api
                {| method := "GET"; query := [("name", "晴天")] |}
                (answers qingtian_upstream))
     = Normal {| via := Success; status := 200; headers := [];
                 payload := VObj [("code", VNum 200); ("title", VStr "晴天");
                                  ("singer", VUndefined); ("cover", VUndefined);
                                  ("music_url", VUndefined);
                                  ("lyric", VStr "http://x/l.lrc")] |})
  /\ VObj [("code", VNum 200); ("title", VStr "晴天");
           ("singer", VUndefined); ("cover", VUndefined);
           ("music_url", VUndefined);
           ("lyric", VStr "http://x/l.lrc")] <> qingtian_output.
Proof.
  split; [|unfold qingtian_output; intros H; discriminate H].
  intros engine api. unfold_run. simpl. reflexivity.
Qed.

Lemma strict_eq_num_true v n : strict_eq_num v n = true -> v = VNum n.
Proof.
  destruct v; simpl; try discriminate.
  intros H. apply Z.eqb_eq in H. subst. reflexivity.
Qed.

(** An upstream body whose [code] is not 200, and which the engine can
    serialise, comes back unchanged with status 200, from the worker always
    and from the pages function where that [code] is truthy. *)
Lemma upstream_error_is_passed_through (d : Proxy) (engine : Engine)
    (request : Request) (net : Network) (r : ApiResponse) (body : value) :
  accepted d request ->
  net (forwarded_url d (query request)) = Received r ->
  ok r = true ->
  api_body r = Json body ->
  nullish body = false ->
  stringify_throws engine body = false ->
  strict_eq_num (prop body "code") 200 = false ->
  (d = PagesFunction -> truthy (prop body "code") = true) ->
  serve d engine request net =
    ([forwarded_url d (query request)],
     Normal {| via := UpstreamDomainError; status := 200;
               headers := [content_type]; payload := body |}).
Proof.
  intros Hacc Hnet Hok Hbody Hnull Hfits Hcode Htruthy.
  destruct d; simpl in Hacc, Hnet; unfold_run.
  - rewrite Hacc. simpl. rewrite Hnet, Hok. simpl.
    rewrite Hbody, Hnull, Hcode. simpl. rewrite Hfits. reflexivity.
  - rewrite Hnet, Hok. simpl.
    rewrite Hbody, Hnull, Hcode, (Htruthy eq_refl). simpl.
    rewrite Hfits. reflexivity.
Qed.

(** C2 at [{code:0, msg:"not found"}]: the worker passes the body through,
    the pages function takes [code] 0 for a missing [code] and reshapes the
    body into a success. *)
Lemma pages_reshapes_a_falsy_code (engine : Engine) :
  serve EdgeWorker engine {| method := "GET"; query := [("name", "x")] |}
    (answers (VObj [("code", VNum 0); ("msg", VStr "not found")]))
  = (["http://music-proxy.dc1.de5.net/?type=json&br=1&n=1&msg=x"],
     Normal {| via := UpstreamDomainError; status := 200;
               headers := [content_type];
               payload := VObj [("code", VNum 0); ("msg", VStr "not found")] |})
  /\
  serve PagesFunction engine {| method := "GET"; query := [("name", "x")] |}
    (answers (VObj [("code", VNum 0); ("msg", VStr "not found")]))
  = (["https://api.cenguigui.cn/api/mg_music/?type=json&br=1&n=1&msg=x"],
     Normal {| via := Success; status := 200;
               headers := [content_type; allow_origin];
               payload := VObj [("code", VNum 200); ("title", VStr "");
                                ("singer", VStr ""); ("cover", VStr "");
                                ("link", VStr ""); ("music_url", VStr "");
                                ("lyric", VStr "")] |}).
Proof.
  split; unfold_run; simpl; reflexivity.
Qed.

(** The pages function reshapes a body without [code] and gives the result
    [code] 200, where the engine can serialise the body. *)
Lemma pages_defaults_code (engine : Engine) (request : Request) (net : Network)
    (r : ApiResponse) (body : value) :
  net (Pages.forwardUrl (query request)) = Received r ->
  ok r = true ->
  api_body r = Json body ->
  nullish body = false ->
  stringify_throws engine body = false ->
  prop body "code" = VUndefined ->
  exists reply,
    outcome (Pages.onRequest engine request net) = Normal reply /\
    via reply = Success /\ status reply = 200%Z /\
    prop (payload reply) "code" = VNum 200.
Proof.
  intros Hnet Hok Hbody Hnull Hfits Hcode. unfold_run.
  rewrite Hnet, Hok. simpl. rewrite Hbody, Hnull, Hcode. simpl.
  rewrite (stringify_no_deeper engine body _
             (proj2 (final_response_no_deeper body)) Hfits).
  eexists. repeat split. unfold Pages.finalResponse. simpl.
  rewrite Hcode. reflexivity.
Qed.

(** C3 at [{data:{title:"晴天"}}], on every engine with room for one level
    below the top: the pages function answers with [code] 200 and the title,
    the worker sends the body back as it came. *)
Lemma worker_forwards_a_body_without_code (engine : Engine) :
  1 <= room engine ->
  serve PagesFunction engine {| method := "GET"; query := [("name", "x")] |}
    (answers (VObj [("data", VObj [("title", VStr "晴天")])]))
  = (["https://api.cenguigui.cn/api/mg_music/?type=json&br=1&n=1&msg=x"],
     Normal {| via := Success; status := 200;
               headers := [content_type; allow_origin];
               payload := VObj [("code", VNum 200); ("title", VStr "晴天");
                                ("singer", VStr ""); ("cover", VStr "");
                                ("link", VStr ""); ("music_url", VStr "");
                                ("lyric", VStr "")] |})
  /\
  serve EdgeWorker engine {| method := "GET"; query := [("name", "x")] |}
    (answers (VObj [("data", VObj [("title", VStr "晴天")])]))
  = (["http://music-proxy.dc1.de5.net/?type=json&br=1&n=1&msg=x"],
     Normal {| via := UpstreamDomainError; status := 200;
               headers := [content_type];
               payload := VObj [("data", VObj [("title", VStr "晴天")])] |}).
Proof.
  intros Hroom.
  assert (Hfits : stringify_throws engine
                    (VObj [("data", VObj [("title", VStr "晴天")])]) = false).
  { unfold stringify_throws. simpl.
    destruct (room engine); [lia | reflexivity]. }
  split; unfold_run; simpl; rewrite ?Hfits; reflexivity.
Qed.

Lemma worker_forwards_a_body_without_code_witness :
  1 <= room roomy /\
  serve EdgeWorker roomy {| method := "GET"; query := [("name", "x")] |}
    (answers (VObj [("data", VObj [("title", VStr "晴天")])]))
  = (["http://music-proxy.dc1.de5.net/?type=json&br=1&n=1&msg=x"],
     Normal {| via := UpstreamDomainError; status := 200;
               headers := [content_type];
               payload := VObj [("data", VObj [("title", VStr "晴天")])] |}).
Proof.
  split; [unfold roomy; simpl; lia|].
  apply (worker_forwards_a_body_without_code roomy).
  unfold roomy; simpl; lia.
Defined.

(** A body that is JSON [null] has no property to read: the read of [code]
    throws and both proxies answer 500 from their outermost [catch]. *)
Example null_body_is_an_internal_error (engine : Engine) :
  (outcome (serve EdgeWorker engine {| method := "GET"; query := [("name", "x")] |}
             (answers VNull))
  = Normal {| via := UnhandledInternalError; status := 500;
              headers := [content_type];
              payload := error_body 500
                "Internal Server Error: Cannot read properties of null (reading 'code')" |})
  /\
  (outcome (serve PagesFunction engine {| method := "GET"; query := [("name", "x")] |}
             (answers VNull))
  = Normal {| via := UnhandledInternalError; status := 500;
              headers := [content_type];
              payload := error_body 500
                "代理脚本内部错误: Cannot read properties of null (reading 'code')" |}).
Proof. split; unfold_run; simpl; flat_bodies; reflexivity. Qed.

(** ** A request without [name] *)

Lemma upstream_msg_absent (d : Proxy) (searchParams : Query) :
  contains d "name" (InboundQuery d searchParams) = false ->
  contains d "msg" (InboundQuery d searchParams) = false ->
  contains d "msg" (UpstreamQuery d searchParams) = false.
Proof.
  destruct d; simpl; unfold Pages.requestParams; by_pairs;
    [rewrite worker_params_msg | rewrite pages_rewrite_msg]; by_pairs;
    intros Hname Hmsg;
    match goal with
    | |- context [pairs_of "name" ?q] =>
        destruct (pairs_of "name" q); [exact Hmsg | discriminate]
    end.
Qed.

(** C8, as the code has it. The worker and the pages function turn no
    request away for a missing [name]: with neither [name] nor [msg] in the
    inbound query they make the one upstream call, without [msg], and the
    reply is decided by the upstream's answer alone. *)
Theorem missing_name_goes_upstream (d : Proxy) (engine : Engine)
    (request : Request) (net : Network) :
  accepted d request ->
  contains d "name" (InboundQuery d (query request)) = false ->
  contains d "msg" (InboundQuery d (query request)) = false ->
  fetched (serve d engine request net) = [forwarded_url d (query request)] /\
  contains d "msg" (UpstreamQuery d (query request)) = false /\
  (exists reply,
     outcome (serve d engine request net) = Normal reply /\
     via reply <> MethodNotAllowed /\ via reply <> MissingName) /\
  (forall request',
     accepted d request' ->
     net (forwarded_url d (query request'))
       = net (forwarded_url d (query request)) ->
     outcome (serve d engine request' net) = outcome (serve d engine request net)).
Proof.
  intros Hacc Hname Hmsg.
  split; [|split; [exact (upstream_msg_absent d _ Hname Hmsg)|split]].
  - destruct d; simpl in Hacc; unfold_run; try rewrite Hacc; simpl;
      walk; reflexivity.
  - destruct d; simpl in Hacc; unfold_run; try rewrite Hacc; simpl;
      walk; eexists; (split; [reflexivity|]); simpl; split; discriminate.
  - intros request' Hacc' Hsame.
    destruct d; simpl in Hacc, Hacc', Hsame; unfold_run;
      try rewrite Hacc; try rewrite Hacc'; simpl; rewrite Hsame;
      walk; reflexivity.
Qed.

Lemma missing_name_goes_upstream_witness :
  accepted EdgeWorker {| method := "GET"; query := [("br", "5")] |} /\
  fetched (serve EdgeWorker roomy {| method := "GET"; query := [("br", "5")] |}
             (answers (VObj [("code", VNum 400); ("msg", VStr "缺少 msg")])))
  = ["http://music-proxy.dc1.de5.net/?br=5&type=json&n=1"].
Proof.
  split; [reflexivity|].
  apply (missing_name_goes_upstream EdgeWorker roomy
           {| method := "GET"; query := [("br", "5")] |}
           (answers (VObj [("code", VNum 400); ("msg", VStr "缺少 msg")])));
    reflexivity.
Defined.

(** C8 as stated fails for the serverless handler: without [name], and with
    an empty [name], it answers 400 and fetches nothing, whatever its
    address. *)
Lemma handler_rejects_a_missing_name :
  (forall engine api,
     Vercel.handler engine api {| method := "GET"; query := [("br", "5")] |}
       (answers qingtian_upstream)
     = ([], Normal {| via := MissingName; status := 400; headers := [];
                      payload := VObj [("code", VNum 400);
                                       ("msg", VStr "缺少 name")] |}))
  /\
  (forall engine api,
     Vercel.handler engine api {| method := "GET"; query := [("name", "")] |}
       (answers qingtian_upstream)
     = ([], Normal {| via := MissingName; status := 400; headers := [];
                      payload := VObj [("code", VNum 400);
                                       ("msg", VStr "缺少 name")] |})).
Proof. split; intros engine api; unfold_run; simpl; reflexivity. Qed.

(** ** The worker's test on [code] *)

(** C10, as the code has it. In the worker the reshaped success reply is
    reached only where the parsed body's [code] is strictly 200: the reply
    then has [code] 200 and the default of [?? 200] is never used. A parsed
    body without [code] that is not [null] and that the engine can serialise
    is sent back as it came, with status 200; the body [null], and a body
    without [code] nested too deep to serialise, get the 500 of the entry
    point. *)
Theorem worker_reshapes_only_code_200 (engine : Engine) (request : Request)
    (net : Network) :
  (forall reply,
     outcome (Worker.fetch engine request net) = Normal reply ->
     via reply = Success ->
     exists r api_data,
       net (Worker.forward_url (query request)) = Received r /\
       api_body r = Json api_data /\
       prop api_data "code" = VNum 200 /\
       nullish (prop api_data "code") = false /\
       prop (payload reply) "code" = VNum 200)
  /\
  (forall r api_data,
     method request = "GET" ->
     net (Worker.forward_url (query request)) = Received r ->
     ok r = true ->
     api_body r = Json api_data ->
     prop api_data "code" = VUndefined ->
     Worker.fetch engine request net =
       ([Worker.forward_url (query request)],
        Normal
          (if nullish api_data then
             {| via := UnhandledInternalError; status := 500;
                headers := [content_type];
                payload := error_body 500
                  ("Internal Server Error: " ++ cannot_read api_data "code") |}
           else if stringify_throws engine api_data then
             {| via := UnhandledInternalError; status := 500;
                headers := [content_type];
                payload := error_body 500
                  ("Internal Server Error: " ++ stack_exceeded) |}
           else
             {| via := UpstreamDomainError; status := 200;
                headers := [content_type]; payload := api_data |}))).
Proof.
  split.
  - intros reply. unfold_run.
    destruct (String.eqb (method request) "GET"); simpl;
      [walk|flat_bodies]; intros Hrun Hvia; injection Hrun as <-;
      try discriminate Hvia.
    match goal with
    | H : negb (strict_eq_num _ 200) = false |- _ =>
        apply negb_false_iff, strict_eq_num_true in H; rename H into Hcode
    end.
    do 2 eexists. repeat split; try eassumption.
    + rewrite Hcode. reflexivity.
    + unfold Worker.final_response. simpl. rewrite Hcode. reflexivity.
  - intros r api_data Hget Hnet Hok Hbody Hcode. unfold_run.
    rewrite Hget. simpl. rewrite Hnet, Hok. simpl. rewrite Hbody.
    destruct (nullish api_data) eqn:Hnull; simpl; flat_bodies;
      [reflexivity|].
    rewrite Hcode. simpl.
    destruct (stringify_throws engine api_data); simpl; flat_bodies;
      reflexivity.
Qed.

Lemma worker_reshapes_only_code_200_witness :
  (exists r api_data,
     answers qingtian_upstream
       (Worker.forward_url [("name", "晴天")]) = Received r /\
     api_body r = Json api_data /\
     prop api_data "code" = VNum 200)
  /\
  Worker.fetch roomy {| method := "GET"; query := [("name", "晴天")] |}
    (answers (VObj [("data", VObj [("title", VStr "晴天")])]))
  = (["http://music-proxy.dc1.de5.net/?type=json&br=1&n=1&msg=%E6%99%B4%E5%A4%A9"],
     Normal {| via := UpstreamDomainError; status := 200;
               headers := [content_type];
               payload := VObj [("data", VObj [("title", VStr "晴天")])] |}).
Proof.
  split.
  - destruct (worker_reshapes_only_code_200 roomy
                {| method := "GET"; query := [("name", "晴天")] |}
                (answers qingtian_upstream)) as [Honly _].
    destruct (Honly {| via := Success; status := 200;
                       headers := [content_type; allow_origin];
                       payload := qingtian_output |})
      as [r [api_data [Hnet [Hbody [Hcode _]]]]]; [reflexivity | reflexivity |].
    exists r, api_data. repeat split; assumption.
  - destruct (worker_reshapes_only_code_200 roomy
                {| method := "GET"; query := [("name", "晴天")] |}
                (answers (VObj [("data", VObj [("title", VStr "晴天")])])))
      as [_ Hback].
    rewrite (Hback
               {| api_status := 200;
                  api_body := Json (VObj [("data", VObj [("title", VStr "晴天")])]) |}
               (VObj [("data", VObj [("title", VStr "晴天")])])
               eq_refl eq_refl eq_refl eq_refl eq_refl).
    reflexivity.
Defined.

(** C10 as stated fails: the body [null] lacks [code] and is not sent back
    but answered with 500, and so is a body without [code] nested deeper
    than the engine's stack lets [JSON.stringify] walk. *)
Lemma worker_answers_500_to_null :
  (forall engine,
     Worker.fetch engine {| method := "GET"; query := [("name", "x")] |}
       (answers VNull)
     = (["http://music-proxy.dc1.de5.net/?type=json&br=1&n=1&msg=x"],
        Normal {| via := UnhandledInternalError; status := 500;
                  headers := [content_type];
                  payload := error_body 500
                    "Internal Server Error: Cannot read properties of null (reading 'code')" |}))
  /\
  Worker.fetch {| room := 1 |} {| method := "GET"; query := [("name", "x")] |}
    (answers (VObj [("data", VArr [VArr [VArr []]])]))
  = (["http://music-proxy.dc1.de5.net/?type=json&br=1&n=1&msg=x"],
     Normal {| via := UnhandledInternalError; status := 500;
               headers := [content_type];
               payload := error_body 500
                 "Internal Server Error: Maximum call stack size exceeded" |}).
Proof.
  split; [intros engine; unfold_run; simpl; flat_bodies|]; reflexivity.
Qed.

(** ** Methods, upstream calls and statuses *)

(** X1. The worker turns every method but GET away with 405 and fetches
    nothing. *)
Theorem other_methods_get_405 (engine : Engine) (request : Request)
    (net : Network) :
  method request <> "GET" ->
  Worker.fetch engine request net =
    ([], Normal {| via := MethodNotAllowed; status := 405;
                   headers := [content_type];
                   payload := error_body 405 "Method Not Allowed" |}).
Proof.
  intros Hne. unfold_run.
  destruct (String.eqb_spec (method request) "GET") as [Heq | _];
    [contradiction | simpl; flat_bodies; reflexivity].
Qed.

Lemma other_methods_get_405_witness :
  "POST" <> "GET" /\
  Worker.fetch roomy {| method := "POST"; query := [("name", "x")] |}
    (answers qingtian_upstream)
  = ([], Normal {| via := MethodNotAllowed; status := 405;
                   headers := [content_type];
                   payload := error_body 405 "Method Not Allowed" |}).
Proof.
  split; [discriminate|].
  apply (other_methods_get_405 roomy
           {| method := "POST"; query := [("name", "x")] |}).
  simpl. discriminate.
Defined.

(** X2. Whatever the upstream answers, a request is forwarded once and never
    again: the worker fetches its forward URL for a GET and nothing
    otherwise, the pages function fetches its forward URL. *)
Theorem one_upstream_call (engine : Engine) (request : Request)
    (net : Network) :
  fetched (Worker.fetch engine request net) =
    (if String.eqb (method request) "GET"
     then [Worker.forward_url (query request)] else [])
  /\ fetched (Pages.onRequest engine request net)
     = [Pages.forwardUrl (query request)].
Proof.
  split; unfold_run.
  - destruct (String.eqb (method request) "GET"); simpl;
      [walk|flat_bodies]; reflexivity.
  - walk; reflexivity.
Qed.

(** X3. The outer status is 200, 405 or 500, never the upstream's. It is 200
    only when the request reached the pipeline and the upstream gave a
    status in 200-299 with a JSON body that is not [null], and then whenever
    the engine can serialise that body; it is 405 exactly when the worker
    got another method than GET. *)
Theorem status_is_200_405_or_500 (d : Proxy) (engine : Engine)
    (request : Request) (net : Network) :
  exists reply,
    outcome (serve d engine request net) = Normal reply /\
    (status reply = 200%Z \/ status reply = 405%Z \/ status reply = 500%Z) /\
    (status reply = 200%Z ->
       accepted d request /\
       stringify_throws engine (payload reply) = false /\
       exists r body,
         net (forwarded_url d (query request)) = Received r /\
         ok r = true /\ api_body r = Json body /\ nullish body = false) /\
    (accepted d request ->
     forall r body,
       net (forwarded_url d (query request)) = Received r ->
       ok r = true -> api_body r = Json body -> nullish body = false ->
       stringify_throws engine body = false ->
       status reply = 200%Z) /\
    (status reply = 405%Z <-> d = EdgeWorker /\ method request <> "GET").
Proof.
  destruct d; simpl; unfold_run;
    [destruct (String.eqb_spec (method request) "GET") as [Hget | Hget]; simpl|];
    try walk; flat_bodies; eexists; (split; [reflexivity|]); simpl.
  all: split; [auto|].
  all: split;
    [ first [ intros H; discriminate H
            | intros _; split; [assumption || exact I|];
              split; [assumption | do 2 eexists; eauto] ] | ].
  all: split;
    [ intros Hacc r' body' Hn Hok Hb Hnull Hfits;
      first
        [ reflexivity
        | exfalso; congruence
        | exfalso;
          match goal with
          | H : stringify_throws ?en ?w = true, Hv : api_body _ = Json ?v |- _ =>
              assert (body' = v) by congruence; subst body';
              rewrite (stringify_no_deeper en v w) in H;
              [discriminate H | apply final_response_no_deeper | exact Hfits]
          end ]
    | ].
  all: split;
    first [ intros H; discriminate H
          | intros [Hd Hm]; congruence
          | intros _; split; [reflexivity | assumption] ].
Qed.

(** X4. A reply that carries [Access-Control-Allow-Origin] is a reshaped
    success; every other reply carries the content type alone. *)
Theorem allow_origin_only_on_success (d : Proxy) (engine : Engine)
    (request : Request) (net : Network) (reply : Reply) :
  outcome (serve d engine request net) = Normal reply ->
  via reply <> Success ->
  headers reply = [content_type].
Proof.
  destruct d; unfold_run;
    [destruct (String.eqb (method request) "GET"); simpl|];
    try walk; flat_bodies; intros Hrun Hvia; injection Hrun as <-;
    solve [reflexivity | exfalso; apply Hvia; reflexivity].
Qed.

Lemma allow_origin_only_on_success_witness :
  headers {| via := UpstreamDomainError; status := 200;
             headers := [content_type];
             payload := VObj [("code", VNum 404)] |} = [content_type].
Proof.
  apply (allow_origin_only_on_success EdgeWorker roomy
           {| method := "GET"; query := [("name", "x")] |}
           (answers (VObj [("code", VNum 404)]))).
  - reflexivity.
  - simpl. discriminate.
Defined.

(** X5. [handleRequest] throws in two situations only, both for a GET whose
    upstream answer has a status in 200-299 and a JSON body: the body is
    [null], so that the read of [code] fails, or [JSON.stringify] cannot
    walk what is to be sent - the body itself where its [code] is not 200,
    the reshaped object where it is. These are the exceptions the [catch] of
    the entry point is for. *)
Theorem handleRequest_throws_twice_only (engine : Engine) (request : Request)
    (net : Network) (e : string) :
  outcome (Worker.handleRequest engine request net) = Throw e <->
  method request = "GET" /\
  exists r body,
    net (Worker.forward_url (query request)) = Received r /\
    ok r = true /\ api_body r = Json body /\
    (nullish body = true /\ e = cannot_read body "code"
     \/ nullish body = false /\ e = stack_exceeded /\
        stringify_throws engine
          (if strict_eq_num (prop body "code") 200
           then Worker.final_response body
                  (logical_or (prop body "data") (VObj []))
           else body) = true).
Proof.
  unfold_run.
  destruct (String.eqb_spec (method request) "GET") as [Hget | Hget]; simpl;
    try walk; flat_bodies; split.
  all: try (intros H; discriminate H).
  all: try (intros [Hacc _]; congruence).
  all: try (intros [_ (r' & body' & Hn & Hok & Hb & _)]; congruence).
  all: try (intros [_ (r' & body' & Hn & Hok & Hb & Hcases)];
            match goal with
            | Hv : api_body _ = Json ?v |- _ =>
                tryif constr_eq v body' then fail
                else (assert (body' = v) by congruence; subst body')
            end;
            destruct Hcases as [[Hnull He] | [Hnull [He Hthrows]]];
            try congruence;
            match goal with
            | H : negb ?c = _ |- _ =>
                destruct c; try discriminate H; cbv iota in Hthrows; congruence
            end).
  all: intros H; injection H as <-; (split; [assumption|]);
    do 2 eexists; (repeat split; try eassumption);
    first
      [ left; split; [assumption | reflexivity]
      | right; (repeat split; try assumption);
        match goal with
        | H : negb ?c = _ |- _ =>
            destruct c; try discriminate H; assumption
        end ].
Qed.

(** ** The reshaped reply *)

(** X6. For a body that is not [null] and that the engine can serialise,
    the worker reshapes exactly when its [code] is the number 200; every
    other such body - with another [code], with the string "200", with no
    [code] at all - comes back unchanged with status 200. *)
Theorem worker_reshapes_exactly_code_200 (engine : Engine) (request : Request)
    (net : Network) (r : ApiResponse) (body : value) :
  method request = "GET" ->
  net (Worker.forward_url (query request)) = Received r ->
  ok r = true ->
  api_body r = Json body ->
  nullish body = false ->
  stringify_throws engine body = false ->
  exists reply,
    outcome (Worker.fetch engine request net) = Normal reply /\
    status reply = 200%Z /\
    (via reply = Success <-> prop body "code" = VNum 200) /\
    (via reply <> Success -> payload reply = body).
Proof.
  intros Hget Hnet Hok Hbody Hnull Hfits. unfold_run.
  rewrite Hget. simpl. rewrite Hnet, Hok. simpl. rewrite Hbody, Hnull. simpl.
  destruct (strict_eq_num (prop body "code") 200) eqn:Hcode; simpl.
  - rewrite (stringify_no_deeper engine body _
               (proj1 (final_response_no_deeper body)) Hfits).
    eexists; (split; [reflexivity|]); simpl; (split; [reflexivity|]).
    apply strict_eq_num_true in Hcode.
    repeat split; auto. intros H. exfalso. apply H. reflexivity.
  - rewrite Hfits.
    eexists; (split; [reflexivity|]); simpl; (split; [reflexivity|]).
    repeat split; try discriminate.
    intros H. rewrite H in Hcode. discriminate Hcode.
Qed.

Lemma worker_reshapes_exactly_code_200_witness :
  exists reply,
    outcome (Worker.fetch roomy {| method := "GET"; query := [("name", "x")] |}
               (answers (VObj [("code", VStr "200"); ("msg", VStr "odd")])))
      = Normal reply /\
    status reply = 200%Z.
Proof.
  destruct (worker_reshapes_exactly_code_200 roomy
              {| method := "GET"; query := [("name", "x")] |}
              (answers (VObj [("code", VStr "200"); ("msg", VStr "odd")]))
              {| api_status := 200;
                 api_body := Json (VObj [("code", VStr "200");
                                         ("msg", VStr "odd")]) |}
              (VObj [("code", VStr "200"); ("msg", VStr "odd")])
              eq_refl eq_refl eq_refl eq_refl eq_refl eq_refl)
    as [reply [Hrun [Hstatus _]]].
  exists reply. split; assumption.
Defined.

(** X7. For a body that is not [null] and that the engine can serialise,
    the pages function reshapes exactly when its [code] is falsy or 200, and
    the reshaped reply then has [code] 200; any other such body is sent back
    as it came. *)
Theorem pages_reshapes_falsy_or_200 (engine : Engine) (request : Request)
    (net : Network) (r : ApiResponse) (body : value) :
  net (Pages.forwardUrl (query request)) = Received r ->
  ok r = true ->
  api_body r = Json body ->
  nullish body = false ->
  stringify_throws engine body = false ->
  exists reply,
    outcome (Pages.onRequest engine request net) = Normal reply /\
    status reply = 200%Z /\
    (via reply = Success <->
       truthy (prop body "code") = false \/ prop body "code" = VNum 200) /\
    (via reply = Success -> prop (payload reply) "code" = VNum 200) /\
    (via reply <> Success -> payload reply = body).
Proof.
  intros Hnet Hok Hbody Hnull Hfits. unfold_run.
  rewrite Hnet, Hok. simpl. rewrite Hbody, Hnull. simpl.
  pose proof (stringify_no_deeper engine body _
                (proj2 (final_response_no_deeper body)) Hfits) as Hbuilt.
  destruct (truthy (prop body "code")) eqn:Htruthy; simpl;
    [destruct (strict_eq_num (prop body "code") 200) eqn:Hcode; simpl|];
    rewrite ?Hbuilt, ?Hfits;
    eexists; (split; [reflexivity|]); simpl; (split; [reflexivity|]).
  - apply strict_eq_num_true in Hcode.
    repeat split; auto; try (intros H; exfalso; apply H; reflexivity).
    intros _. unfold logical_or. rewrite Hcode. reflexivity.
  - repeat split; try discriminate; auto.
    intros [H | H]; [discriminate H|]. rewrite H in Hcode. discriminate Hcode.
  - repeat split; auto; try (intros H; exfalso; apply H; reflexivity).
    intros _. unfold logical_or. rewrite Htruthy. reflexivity.
Qed.

Lemma pages_reshapes_falsy_or_200_witness :
  exists reply,
    outcome (Pages.onRequest roomy {| method := "GET"; query := [("name", "x")] |}
               (answers (VObj [("code", VStr ""); ("msg", VStr "none")])))
      = Normal reply /\
    status reply = 200%Z.
Proof.
  destruct (pages_reshapes_falsy_or_200 roomy
              {| method := "GET"; query := [("name", "x")] |}
              (answers (VObj [("code", VStr ""); ("msg", VStr "none")]))
              {| api_status := 200;
                 api_body := Json (VObj [("code", VStr ""); ("msg", VStr "none")]) |}
              (VObj [("code", VStr ""); ("msg", VStr "none")])
              eq_refl eq_refl eq_refl eq_refl eq_refl)
    as [reply [Hrun [Hstatus _]]].
  exists reply. split; assumption.
Defined.

(** X8. A body with [code] 200 whose [data] is missing or falsy is no error:
    both proxies answer with [code] 200 and six empty strings. *)
Theorem missing_data_gives_empty_fields (d : Proxy) (engine : Engine)
    (request : Request) (net : Network) (r : ApiResponse) (body : value) :
  accepted d request ->
  net (forwarded_url d (query request)) = Received r ->
  ok r = true ->
  api_body r = Json body ->
  prop body "code" = VNum 200 ->
  truthy (prop body "data") = false ->
  outcome (serve d engine request net) =
    Normal {| via := Success; status := 200;
              headers := [content_type; allow_origin];
              payload := VObj [("code", VNum 200); ("title", VStr "");
                               ("singer", VStr ""); ("cover", VStr "");
                               ("link", VStr ""); ("music_url", VStr "");
                               ("lyric", VStr "")] |}.
Proof.
  intros Hacc Hnet Hok Hbody Hcode Hdata.
  assert (Hnull : nullish body = false).
  { destruct body; simpl in Hcode; try discriminate; reflexivity. }
  destruct d; simpl in Hacc, Hnet; unfold_run; try rewrite Hacc; simpl;
    rewrite Hnet, Hok; simpl; rewrite Hbody, Hnull, Hcode; simpl;
    unfold logical_or; rewrite Hdata;
    unfold Worker.final_response, Pages.finalResponse; rewrite Hcode;
    simpl; try (rewrite (stringify_flat engine) by reflexivity); reflexivity.
Qed.

Lemma missing_data_gives_empty_fields_witness :
  outcome (serve EdgeWorker roomy {| method := "GET"; query := [("name", "x")] |}
             (answers (VObj [("code", VNum 200); ("data", VNull)])))
  = Normal {| via := Success; status := 200;
              headers := [content_type; allow_origin];
              payload := VObj [("code", VNum 200); ("title", VStr "");
                               ("singer", VStr ""); ("cover", VStr "");
                               ("link", VStr ""); ("music_url", VStr "");
                               ("lyric", VStr "")] |}.
Proof.
  apply (missing_data_gives_empty_fields EdgeWorker roomy
           {| method := "GET"; query := [("name", "x")] |}
           (answers (VObj [("code", VNum 200); ("data", VNull)]))
           {| api_status := 200;
              api_body := Json (VObj [("code", VNum 200); ("data", VNull)]) |}
           (VObj [("code", VNum 200); ("data", VNull)]));
    reflexivity.
Defined.

(** X9. A field the upstream gives as 0, [false] or the empty string -
    falsy, but neither [null] nor missing - is sent on as it is by the
    worker, whose [??] replaces [null] and [undefined] only, and is replaced
    by the empty string by the pages function, whose [||] replaces every
    falsy value. *)
Theorem falsy_fields_survive_the_worker_only (d : Proxy) (engine : Engine)
    (request : Request) (net : Network) (r : ApiResponse) (body : value)
    (data : list (string * value)) (from to : string) :
  accepted d request ->
  net (forwarded_url d (query request)) = Received r ->
  ok r = true ->
  api_body r = Json body ->
  stringify_throws engine body = false ->
  prop body "code" = VNum 200 ->
  prop body "data" = VObj data ->
  In (from, to) [("title", "title"); ("singer", "singer"); ("cover", "cover");
                 ("link", "link"); ("music_url", "music_url");
                 ("lrc_url", "lyric")] ->
  nullish (own from data) = false ->
  truthy (own from data) = false ->
  exists reply,
    outcome (serve d engine request net) = Normal reply /\
    via reply = Success /\
    prop (payload reply) to =
      match d with
      | EdgeWorker => own from data
      | PagesFunction => VStr ""
      end.
Proof.
  intros Hacc Hnet Hok Hbody Hfits Hcode Hdata Hkey Hnullish Hfalsy.
  assert (Hnull : nullish body = false).
  { destruct body; simpl in Hcode; try discriminate; reflexivity. }
  assert (Hmusic : logical_or (prop body "data") (VObj []) = VObj data).
  { rewrite Hdata. reflexivity. }
  assert (Hw : stringify_throws engine
                 (Worker.final_response body (VObj data)) = false).
  { rewrite <- Hmusic.
    exact (stringify_no_deeper engine body _
             (proj1 (final_response_no_deeper body)) Hfits). }
  assert (Hp : stringify_throws engine
                 (Pages.finalResponse body (VObj data)) = false).
  { rewrite <- Hmusic.
    exact (stringify_no_deeper engine body _
             (proj2 (final_response_no_deeper body)) Hfits). }
  destruct d; simpl in Hacc, Hnet; unfold_run; try rewrite Hacc; simpl;
    rewrite Hnet, Hok; simpl; rewrite Hbody, Hnull, Hcode; simpl;
    rewrite Hmusic, ?Hw, ?Hp;
    eexists; (split; [reflexivity|]); (split; [reflexivity|]);
    simpl in Hkey;
    repeat (destruct Hkey as [Hkey | Hkey];
            [injection Hkey as <- <-; simpl; unfold own at 1; simpl;
             unfold nullish_coalesce, logical_or;
             rewrite ?Hnullish, ?Hfalsy; reflexivity|]);
    contradiction.
Qed.

Lemma falsy_fields_survive_the_worker_only_witness :
  exists reply,
    outcome (serve EdgeWorker roomy {| method := "GET"; query := [("name", "x")] |}
               (answers (VObj [("code", VNum 200);
                               ("data", VObj [("title", VNum 0)])])))
      = Normal reply /\
    via reply = Success /\
    prop (payload reply) "title" = VNum 0.
Proof.
  apply (falsy_fields_survive_the_worker_only EdgeWorker roomy
           {| method := "GET"; query := [("name", "x")] |}
           (answers (VObj [("code", VNum 200);
                           ("data", VObj [("title", VNum 0)])]))
           {| api_status := 200;
              api_body := Json (VObj [("code", VNum 200);
                                      ("data", VObj [("title", VNum 0)])]) |}
           (VObj [("code", VNum 200); ("data", VObj [("title", VNum 0)])])
           [("title", VNum 0)] "title" "title");
    try reflexivity.
  simpl. auto.
Defined.

(** ** More on the rewriting of the query *)

(** X10. The worker forces [type] to [json] whatever the caller sent; the
    pages function sends the caller's [type] (the last, where it is given
    several times) and [json] only where the caller's query holds none. *)
Theorem type_is_forced_or_defaulted (searchParams : Query) :
  URLSearchParams.get "type" (Worker.params searchParams) = Some "json" /\
  JSMap.get "type" (Pages.requestParams searchParams) =
    match hd_error (rev (values_of "type" searchParams)) with
    | Some type => Some type
    | None => Some "json"
    end.
Proof.
  unfold Pages.requestParams. split.
  - rewrite usp_get_spec, worker_params_type. reflexivity.
  - rewrite <- copy_get_last.
    rewrite !map_get_spec, pages_rewrite_type, map_has_spec.
    destruct (pairs_of "type" (Pages.copy searchParams)); reflexivity.
Qed.

(** X11. What the worker sends under each name it rewrites: [type] and [n] once
    each, however often the caller gave them; no [name]; every [br] of the
    caller, or one [br] = 1; one [msg] holding the first [name], or the
    caller's own [msg] entries where there is no [name]. *)
Theorem worker_values_sent (searchParams : Query) :
  values_of "type" (Worker.params searchParams) = ["json"] /\
  values_of "n" (Worker.params searchParams) = ["1"] /\
  values_of "name" (Worker.params searchParams) = [] /\
  values_of "br" (Worker.params searchParams) =
    (if URLSearchParams.has "br" searchParams
     then values_of "br" searchParams else ["1"]) /\
  values_of "msg" (Worker.params searchParams) =
    match values_of "name" searchParams with
    | first :: _ => [first]
    | [] => values_of "msg" searchParams
    end.
Proof.
  unfold values_of. fold (pairs_of "type" (Worker.params searchParams)).
  fold (pairs_of "n" (Worker.params searchParams)).
  fold (pairs_of "name" (Worker.params searchParams)).
  fold (pairs_of "br" (Worker.params searchParams)).
  fold (pairs_of "msg" (Worker.params searchParams)).
  rewrite worker_params_type, worker_params_n, worker_params_name,
    worker_params_br, worker_params_msg.
  repeat split.
  - destruct (URLSearchParams.has "br" searchParams); reflexivity.
  - rewrite usp_get_spec. unfold pairs_of.
    destruct (filter (named "name") searchParams); reflexivity.
Qed.

(** X12. The pages function sends no parameter name twice. *)
Theorem pages_sends_each_name_once (searchParams : Query) :
  NoDup (keys (Pages.requestParams searchParams)).
Proof. apply rewrite_keys, copy_keys. Qed.

(** X13. Where the caller repeats a name, the [Map] of the pages function keeps
    the last value given, and that is the [name] it forwards as [msg]; the
    worker forwards the first. *)
Theorem pages_keeps_the_last_value (searchParams : Query) (key : string) :
  JSMap.get key (Pages.copy searchParams) =
    hd_error (rev (values_of key searchParams))
  /\ (values_of "name" searchParams <> [] ->
      JSMap.get "msg" (Pages.requestParams searchParams) =
        hd_error (rev (values_of "name" searchParams))
      /\ URLSearchParams.get "msg" (Worker.params searchParams) =
        hd_error (values_of "name" searchParams)).
Proof.
  assert (Hcopy : forall k, JSMap.get k (Pages.copy searchParams) =
                            hd_error (rev (values_of k searchParams))).
  { intros k. apply copy_get_last. }
  split; [apply Hcopy|]. intros Hname. split.
  - unfold Pages.requestParams.
    rewrite map_get_spec, pages_rewrite_msg, Hcopy.
    destruct (rev (values_of "name" searchParams)) eqn:E; [|reflexivity].
    exfalso. apply Hname. apply (f_equal (@rev string)) in E.
    rewrite rev_involutive in E. exact E.
  - rewrite usp_get_spec, worker_params_msg, usp_get_spec.
    unfold values_of in *. unfold pairs_of.
    destruct (filter (named "name") searchParams); [contradiction | reflexivity].
Qed.

Lemma pages_keeps_the_last_value_witness :
  JSMap.get "msg"
    (Pages.requestParams [("name", "a"); ("n", "3"); ("name", "b")]) = Some "b"
  /\ URLSearchParams.get "msg"
    (Worker.params [("name", "a"); ("n", "3"); ("name", "b")]) = Some "a".
Proof.
  apply (pages_keeps_the_last_value
           [("name", "a"); ("n", "3"); ("name", "b")] "name").
  simpl. discriminate.
Defined.

Section Untouched.

Variable keep : string * string -> bool.
Variable name : string.
Hypothesis keep_not_name : forall p, named name p = true -> keep p = false.

Lemma filter_delete q :
  filter keep (filter (fun p => negb (named name p)) q) = filter keep q.
Proof.
  induction q as [|p q IH]; simpl; [reflexivity|].
  destruct (named name p) eqn:E; simpl.
  - rewrite (keep_not_name p E). exact IH.
  - destruct (keep p); [f_equal|]; exact IH.
Qed.

Lemma filter_usp_set value q :
  filter keep (URLSearchParams.set name value q) = filter keep q.
Proof.
  induction q as [|p q IH]; simpl.
  - rewrite (keep_not_name _ (named_refl name value)). reflexivity.
  - destruct (named name p) eqn:E; simpl.
    + rewrite (keep_not_name _ (named_refl name value)).
      rewrite (keep_not_name p E). apply filter_delete.
    + destruct (keep p); [f_equal|]; exact IH.
Qed.

Lemma filter_map_set value q :
  filter keep (JSMap.set name value q) = filter keep q.
Proof.
  induction q as [|p q IH]; simpl.
  - rewrite (keep_not_name _ (named_refl name value)). reflexivity.
  - destruct (named name p) eqn:E; simpl.
    + rewrite (keep_not_name _ (named_refl name value)).
      rewrite (keep_not_name p E). reflexivity.
    + destruct (keep p); [f_equal|]; exact IH.
Qed.

End Untouched.

Lemma rewritten_not_kept name p :
  rewritten name = true -> named name p = true ->
  negb (rewritten (fst p)) = false.
Proof.
  intros Hname Hp. unfold named in Hp. apply String.eqb_eq in Hp.
  rewrite Hp, Hname. reflexivity.
Qed.

Ltac drop_rewrites :=
  unfold untouched;
  repeat first
    [ rewrite filter_usp_set
        by (intros ?; apply rewritten_not_kept; reflexivity)
    | rewrite filter_map_set
        by (intros ?; apply rewritten_not_kept; reflexivity)
    | rewrite filter_delete
        by (intros ?; apply rewritten_not_kept; reflexivity) ].

(** X14. Every parameter other than [type], [br], [n], [name] and [msg] goes
    upstream as the caller gave it, with its repetitions and in the caller's
    order; the pages function sends each such name once, with its last
    value. *)
Theorem other_parameters_pass_through (searchParams : Query) :
  untouched (Worker.params searchParams) = untouched searchParams /\
  untouched (Pages.requestParams searchParams)
    = untouched (Pages.copy searchParams).
Proof.
  split.
  - unfold Worker.params.
    repeat match goal with |- context [if ?c then _ else _] => destruct c end;
      unfold URLSearchParams.delete; drop_rewrites; reflexivity.
  - unfold Pages.requestParams, Pages.rewrite.
    repeat match goal with |- context [if ?c then _ else _] => destruct c end;
      unfold JSMap.delete; drop_rewrites; reflexivity.
Qed.

(** ** Where the two proxies send the same parameters *)

Lemma unique_key_pairs key m :
  ~ In key (keys m) -> pairs_of key m = [].
Proof.
  intros H. apply not_In_has_false in H. rewrite map_has_spec in H.
  destruct (pairs_of key m); [reflexivity | discriminate].
Qed.

Lemma usp_set_is_map_set key value m :
  NoDup (keys m) -> URLSearchParams.set key value m = JSMap.set key value m.
Proof.
  unfold keys. induction m as [|[k v] m IH]; simpl; intros H; [reflexivity|].
  inversion H as [|? ? Hnotin Hrest]; subst.
  destruct (named key (k, v)) eqn:E.
  - f_equal. apply delete_absent. apply unique_key_pairs.
    unfold named in E; simpl in E. apply String.eqb_eq in E. subst k.
    exact Hnotin.
  - f_equal. auto.
Qed.

Lemma has_true_get key m :
  URLSearchParams.has key m = true ->
  exists value, URLSearchParams.get key m = Some value.
Proof.
  rewrite usp_has_spec, usp_get_spec.
  destruct (pairs_of key m) as [|[k v] rest]; simpl; [discriminate|].
  intros _. exists v. reflexivity.
Qed.

(** X15. On a query that gives no name twice and asks for no [type] but [json],
    the worker and the pages function send the same parameters in the same
    order. *)
Theorem proxies_agree_on_plain_queries (searchParams : Query) :
  NoDup (keys searchParams) ->
  (forall type, URLSearchParams.get "type" searchParams = Some type ->
                type = "json") ->
  Worker.params searchParams = Pages.requestParams searchParams.
Proof.
  intros Hkeys Htype.
  unfold Pages.requestParams. rewrite (copy_fixed searchParams Hkeys).
  unfold Worker.params, Pages.rewrite.
  assert (H1 : URLSearchParams.set "type" "json" searchParams =
               (if negb (JSMap.has "type" searchParams)
                then JSMap.set "type" "json" searchParams
                else searchParams)).
  { rewrite (usp_set_is_map_set _ _ _ Hkeys).
    destruct (JSMap.has "type" searchParams) eqn:E; simpl; [|reflexivity].
    destruct (has_true_get _ _ E) as [t Ht].
    apply map_set_fixed. rewrite <- (Htype t Ht). exact Ht. }
  rewrite H1. clear H1.
  set (m1 := if negb (JSMap.has "type" searchParams) then _ else _).
  assert (K1 : NoDup (keys m1)).
  { subst m1. destruct (negb (JSMap.has "type" searchParams));
      [apply set_keys|]; exact Hkeys. }
  change (URLSearchParams.has "br" m1) with (JSMap.has "br" m1).
  rewrite (usp_set_is_map_set "br" "1" m1 K1).
  set (m2 := if negb (JSMap.has "br" m1) then _ else _).
  assert (K2 : NoDup (keys m2)).
  { subst m2. destruct (negb (JSMap.has "br" m1));
      [apply set_keys|]; exact K1. }
  rewrite (usp_set_is_map_set "n" "1" m2 K2).
  set (m3 := JSMap.set "n" "1" m2).
  assert (K3 : NoDup (keys m3)) by (apply set_keys; exact K2).
  change (URLSearchParams.has "name" m3) with (JSMap.has "name" m3).
  destruct (JSMap.has "name" m3) eqn:E; [|reflexivity].
  destruct (has_true_get _ _ E) as [v Hv].
  change (JSMap.get "name" m3) with (URLSearchParams.get "name" m3).
  rewrite Hv. rewrite (usp_set_is_map_set "msg" v m3 K3). reflexivity.
Qed.

Lemma proxies_agree_on_plain_queries_witness :
  Worker.params [("name", "晴天"); ("br", "5"); ("page", "2")]
  = Pages.requestParams [("name", "晴天"); ("br", "5"); ("page", "2")].
Proof.
  apply proxies_agree_on_plain_queries.
  - unfold keys; simpl. repeat constructor; simpl; intuition discriminate.
  - intros type H. discriminate H.
Defined.

(** ** The query string *)

Lemma hex_digit_alnum n : is_alnum (hex_digit n) = true.
Proof.
  destruct n as [|p]; [reflexivity|].
  do 4 (destruct p as [p | p |]; try reflexivity).
Qed.

Lemma percent_byte_read_back c :
  ascii_of_N (16 * unhex (hex_digit (N_of_ascii c / 16))
              + unhex (hex_digit (N_of_ascii c mod 16))) = c.
Proof.
  destruct c as [[] [] [] [] [] [] [] []]; reflexivity.
Qed.

Lemma percent_decode_byte plus_space c tail :
  percent_decode plus_space (percent_byte c ++ tail) =
  String c (percent_decode plus_space tail).
Proof.
  transitivity
    (String (ascii_of_N (16 * unhex (hex_digit (N_of_ascii c / 16))
                         + unhex (hex_digit (N_of_ascii c mod 16))))
       (percent_decode plus_space tail)).
  - reflexivity.
  - rewrite percent_byte_read_back. reflexivity.
Qed.

Lemma percent_encode_cons keep plus_space c s :
  percent_encode keep plus_space (String c s) =
  if plus_space && Ascii.eqb c " "
  then String "+" (percent_encode keep plus_space s)
  else if keep c then String c (percent_encode keep plus_space s)
       else (percent_byte c ++ percent_encode keep plus_space s)%string.
Proof. reflexivity. Qed.

Lemma percent_decode_encode keep plus_space s :
  keep "%"%char = false ->
  (plus_space = true -> keep "+"%char = false) ->
  percent_decode plus_space (percent_encode keep plus_space s) = s.
Proof.
  intros Hpercent Hplus. induction s as [|c s IH]; [reflexivity|].
  rewrite percent_encode_cons.
  destruct (plus_space && Ascii.eqb c " ") eqn:Espace.
  - apply andb_true_iff in Espace. destruct Espace as [Hp Hc].
    apply Ascii.eqb_eq in Hc. subst. simpl. rewrite IH. reflexivity.
  - destruct (keep c) eqn:Ekeep.
    + simpl. destruct (Ascii.eqb c "%") eqn:E1.
      { apply Ascii.eqb_eq in E1. subst. congruence. }
      destruct (plus_space && Ascii.eqb c "+") eqn:E2.
      { apply andb_true_iff in E2. destruct E2 as [Hp Hc].
        apply Ascii.eqb_eq in Hc. subst. rewrite (Hplus eq_refl) in Ekeep.
        discriminate. }
      rewrite IH. reflexivity.
    + rewrite percent_decode_byte, IH. reflexivity.
Qed.

Lemma mentions_app c a b :
  mentions c (a ++ b) = mentions c a || mentions c b.
Proof.
  induction a as [|x a IH]; simpl; [reflexivity|].
  rewrite IH. apply orb_assoc.
Qed.

Lemma percent_encode_safe keep plus_space s c :
  (forall x, keep x = true -> query_safe x = true) ->
  mentions c (percent_encode keep plus_space s) = true ->
  query_safe c = true.
Proof.
  intros Hkeep. induction s as [|x s IH]; [discriminate|].
  rewrite percent_encode_cons.
  assert (Hhex : forall n, Ascii.eqb (hex_digit n) c = true ->
                           query_safe c = true).
  { intros n E. apply Ascii.eqb_eq in E. subst c.
    unfold query_safe. rewrite hex_digit_alnum. reflexivity. }
  destruct (plus_space && Ascii.eqb x " ").
  - cbn [mentions]. intros H. apply orb_true_iff in H.
    destruct H as [H | H]; [|exact (IH H)].
    apply Ascii.eqb_eq in H. subst. reflexivity.
  - destruct (keep x) eqn:Ekeep.
    + cbn [mentions]. intros H. apply orb_true_iff in H.
      destruct H as [H | H]; [|exact (IH H)].
      apply Ascii.eqb_eq in H. subst. auto.
    + unfold percent_byte. rewrite mentions_app. cbn [mentions].
      intros H.
      repeat (apply orb_true_iff in H; destruct H as [H | H]);
        eauto; try discriminate H.
      apply Ascii.eqb_eq in H. subst. reflexivity.
Qed.

Lemma append_cancel prefix x y :
  (prefix ++ x)%string = (prefix ++ y)%string -> x = y.
Proof.
  induction prefix as [|c prefix IH]; simpl; intros H; [exact H|].
  injection H as H. auto.
Qed.

Lemma append_String_assoc a x b c :
  ((a ++ String x b) ++ c)%string = (a ++ String x (b ++ c))%string.
Proof.
  induction a as [|a0 a IH]; simpl; [reflexivity|].
  rewrite IH. reflexivity.
Qed.

Lemma split_at_first c a b x y :
  mentions c a = false -> mentions c b = false ->
  (a ++ String c x)%string = (b ++ String c y)%string -> a = b /\ x = y.
Proof.
  revert b. induction a as [|a0 a IH]; intros [|b0 b]; simpl; intros Ha Hb H.
  - injection H as H. auto.
  - injection H as H0 H. subst b0. rewrite Ascii.eqb_refl in Hb. discriminate.
  - injection H as H0 H. subst a0. rewrite Ascii.eqb_refl in Ha. discriminate.
  - injection H as H0 H. subst b0.
    apply orb_false_iff in Ha. apply orb_false_iff in Hb.
    destruct (IH b (proj2 Ha) (proj2 Hb) H) as [-> ->]. auto.
Qed.

Section QueryString.

Variable enc : string -> string.
Hypothesis enc_injective : forall s1 s2, enc s1 = enc s2 -> s1 = s2.
Hypothesis enc_no_amp : forall s, mentions "&" (enc s) = false.
Hypothesis enc_no_eq : forall s, mentions "=" (enc s) = false.

Lemma item_injective (p1 p2 : string * string) :
  (enc (fst p1) ++ "=" ++ enc (snd p1))%string
    = (enc (fst p2) ++ "=" ++ enc (snd p2))%string ->
  p1 = p2.
Proof.
  destruct p1 as [k1 v1], p2 as [k2 v2]. simpl. intros H.
  apply split_at_first in H; try apply enc_no_eq.
  destruct H as [Hk Hv].
  rewrite (enc_injective _ _ Hk), (enc_injective _ _ Hv). reflexivity.
Qed.

Lemma item_no_amp (p : string * string) :
  mentions "&" (enc (fst p) ++ "=" ++ enc (snd p)) = false.
Proof.
  rewrite mentions_app. simpl. rewrite !enc_no_amp. reflexivity.
Qed.

Lemma item_not_empty (p : string * string) :
  (enc (fst p) ++ "=" ++ enc (snd p))%string <> "".
Proof.
  intros H. apply (f_equal (mentions "=")) in H.
  rewrite mentions_app in H. simpl in H.
  rewrite orb_true_r in H. discriminate.
Qed.

Lemma join_pairs_cons p q :
  join_pairs enc (p :: q) =
  match q with
  | [] => (enc (fst p) ++ "=" ++ enc (snd p))%string
  | _ :: _ => (enc (fst p) ++ "=" ++ enc (snd p)
               ++ String "&" (join_pairs enc q))%string
  end.
Proof.
  unfold join_pairs. destruct q as [|p' q]; [reflexivity|].
  apply (append_String_assoc (enc (fst p)) "=" (enc (snd p))).
Qed.

Lemma join_pairs_injective q1 q2 :
  join_pairs enc q1 = join_pairs enc q2 -> q1 = q2.
Proof.
  revert q2. induction q1 as [|p1 q1 IH]; intros [|p2 q2].
  - reflexivity.
  - rewrite join_pairs_cons. intros H. exfalso.
    destruct q2; [exact (item_not_empty p2 (eq_sym H))|].
    apply (f_equal (mentions "=")) in H.
    rewrite !mentions_app in H. simpl in H.
    rewrite orb_true_r in H. discriminate.
  - rewrite join_pairs_cons. intros H. exfalso.
    destruct q1; [exact (item_not_empty p1 H)|].
    apply (f_equal (mentions "=")) in H.
    rewrite !mentions_app in H. simpl in H.
    rewrite orb_true_r in H. discriminate.
  - rewrite !join_pairs_cons. intros H.
    assert (Hglue : forall (a b c : string),
              (a ++ "=" ++ b ++ c)%string = ((a ++ "=" ++ b) ++ c)%string).
    { intros a b c. symmetry. apply (append_String_assoc a "=" b c). }
    destruct q1 as [|p1' q1], q2 as [|p2' q2].
    + rewrite (item_injective p1 p2 H). reflexivity.
    + exfalso. apply (f_equal (mentions "&")) in H.
      rewrite Hglue, item_no_amp, mentions_app, item_no_amp in H.
      simpl in H. discriminate.
    + exfalso. apply (f_equal (mentions "&")) in H.
      rewrite Hglue, item_no_amp, mentions_app, item_no_amp in H.
      simpl in H. discriminate.
    + rewrite !Hglue in H.
      apply split_at_first in H; try apply item_no_amp.
      destruct H as [Hitem Hrest].
      rewrite (item_injective p1 p2 Hitem), (IH _ Hrest). reflexivity.
Qed.

End QueryString.

Lemma form_urlencode_injective s1 s2 :
  form_urlencode s1 = form_urlencode s2 -> s1 = s2.
Proof.
  intros H.
  rewrite <- (percent_decode_encode
                (fun c => is_alnum c || one_of "*-._" c) true s1),
          <- (percent_decode_encode
                (fun c => is_alnum c || one_of "*-._" c) true s2);
    try reflexivity.
  unfold form_urlencode in H. rewrite H. reflexivity.
Qed.

Lemma encodeURIComponent_injective s1 s2 :
  encodeURIComponent s1 = encodeURIComponent s2 -> s1 = s2.
Proof.
  intros H.
  rewrite <- (percent_decode_encode
                (fun c => is_alnum c || one_of "-_.!~*'()" c) false s1),
          <- (percent_decode_encode
                (fun c => is_alnum c || one_of "-_.!~*'()" c) false s2);
    try reflexivity; try discriminate.
  unfold encodeURIComponent in H. rewrite H. reflexivity.
Qed.

Lemma keep_sets_are_safe x :
  (is_alnum x || one_of "*-._" x = true -> query_safe x = true) /\
  (is_alnum x || one_of "-_.!~*'()" x = true -> query_safe x = true).
Proof.
  split; intros Hx; unfold query_safe;
    apply orb_true_iff in Hx; destruct Hx as [Hx | Hx];
    try (rewrite Hx; reflexivity);
    unfold one_of in *; simpl in *;
    repeat match goal with
           | H : (Ascii.eqb x ?a || _) = true |- _ =>
               apply orb_true_iff in H; destruct H as [H | H];
               [apply Ascii.eqb_eq in H; subst x; reflexivity|]
           end;
    discriminate.
Qed.

Lemma encodings_hold_no c s :
  query_safe c = false ->
  mentions c (form_urlencode s) = false /\
  mentions c (encodeURIComponent s) = false.
Proof.
  intros Hc. split.
  - destruct (mentions c (form_urlencode s)) eqn:E; [|reflexivity].
    apply percent_encode_safe in E; [congruence|].
    intros x. apply keep_sets_are_safe.
  - destruct (mentions c (encodeURIComponent s)) eqn:E; [|reflexivity].
    apply percent_encode_safe in E; [congruence|].
    intros x. apply keep_sets_are_safe.
Qed.

(** X16. The URL fetched tells the parameters sent: two requests forwarded to
    the same URL carry the same names and values in the same order. No
    value, whatever [&], [=] or [%] it holds, passes for another list of
    parameters. *)
Theorem forward_url_tells_the_parameters (d : Proxy) (q1 q2 : Query) :
  forwarded_url d q1 = forwarded_url d q2 ->
  UpstreamQuery d q1 = UpstreamQuery d q2.
Proof.
  destruct d; simpl;
    unfold Worker.forward_url, Pages.forwardUrl, Pages.queryString,
      URLSearchParams_toString, JSMap.entries;
    intros H; apply append_cancel in H; apply append_cancel in H;
    revert H; apply join_pairs_injective;
    first [apply form_urlencode_injective
          | apply encodeURIComponent_injective
          | intros s; apply encodings_hold_no; reflexivity].
Qed.

Lemma forward_url_tells_the_parameters_witness :
  UpstreamQuery EdgeWorker [("name", "a&n=5"); ("n", "5")]
  = UpstreamQuery EdgeWorker [("name", "a&n=5"); ("n", "7")].
Proof.
  apply (forward_url_tells_the_parameters EdgeWorker).
  reflexivity.
Defined.

Lemma mentions_join_pairs enc q c :
  mentions c (join_pairs enc q) = true ->
  (exists s, mentions c (enc s) = true) \/ c = "="%char \/ c = "&"%char.
Proof.
  assert (Hitem : forall p : string * string,
            mentions c (enc (fst p) ++ "=" ++ enc (snd p)) = true ->
            (exists s, mentions c (enc s) = true) \/ c = "="%char \/ c = "&"%char).
  { intros p H. rewrite mentions_app in H. cbn [append mentions] in H.
    apply orb_true_iff in H. destruct H as [H | H]; [eauto|].
    apply orb_true_iff in H. destruct H as [H | H]; [|eauto].
    apply Ascii.eqb_eq in H. auto. }
  induction q as [|p q IH]; [discriminate|].
  rewrite join_pairs_cons. destruct q as [|p' q]; [apply Hitem|].
  intros H.
  change (mentions c ((enc (fst p) ++ "=" ++ enc (snd p) ++ "")
                      ++ String "&" (join_pairs enc (p' :: q))) = true)
    with (mentions c (enc (fst p) ++ "=" ++ enc (snd p)
                      ++ String "&" (join_pairs enc (p' :: q))) = true) in H
    || idtac.
  rewrite mentions_app in H. cbn [append mentions] in H.
  apply orb_true_iff in H. destruct H as [H | H]; [eauto|].
  apply orb_true_iff in H. destruct H as [H | H];
    [apply Ascii.eqb_eq in H; auto|].
  rewrite mentions_app in H. cbn [mentions] in H.
  apply orb_true_iff in H. destruct H as [H | H]; [eauto|].
  apply orb_true_iff in H. destruct H as [H | H];
    [apply Ascii.eqb_eq in H; auto | auto].
Qed.

Lemma mentions_literal c s (allowed : ascii -> bool) :
  forallb allowed (list_ascii_of_string s) = true ->
  mentions c s = true -> allowed c = true.
Proof.
  induction s as [|x s IH]; simpl; [discriminate|].
  intros Hall H. apply andb_true_iff in Hall. destruct Hall as [Hx Hs].
  apply orb_true_iff in H. destruct H as [H | H]; [|auto].
  apply Ascii.eqb_eq in H. subst. exact Hx.
Qed.

(** X17. The URL a proxy fetches is plain ASCII whatever the caller sent: beside
    the characters of the base address and the separators [?], [&] and [=]
    it holds letters, digits and [*-._+%!~'()] only - no space, no [#], no
    byte above 127. *)
Theorem forward_url_is_plain_ascii (d : Proxy) (searchParams : Query)
    (c : ascii) :
  mentions c (forwarded_url d searchParams) = true ->
  query_safe c = true \/ one_of ":/?&=" c = true.
Proof.
  assert (Hquery : forall enc q,
            (forall s, mentions c (enc s) = true -> query_safe c = true) ->
            mentions c (join_pairs enc q) = true ->
            query_safe c = true \/ one_of ":/?&=" c = true).
  { intros enc q Henc H.
    destruct (mentions_join_pairs enc q c H) as [[s Hs] | [-> | ->]];
      [left; eauto | right; reflexivity | right; reflexivity]. }
  destruct d;
    unfold forwarded_url, Worker.forward_url, Pages.forwardUrl,
      Pages.queryString, URLSearchParams_toString, JSMap.entries;
    intros H; rewrite mentions_app in H;
    apply orb_true_iff in H; destruct H as [H | H];
    try (apply orb_true_iff;
         match type of H with
         | mentions c ?base = true =>
             exact (mentions_literal c base
                      (fun x => query_safe x || one_of ":/?&=" x) eq_refl H)
         end);
    cbn [append mentions] in H;
    apply orb_true_iff in H; destruct H as [H | H];
    try (apply Ascii.eqb_eq in H; subst c; right; reflexivity);
    apply (Hquery _ _) in H; try exact H;
    intros s Hs; eapply percent_encode_safe; try exact Hs;
    intros x; apply keep_sets_are_safe.
Qed.

Lemma forward_url_is_plain_ascii_witness :
  mentions "%" (forwarded_url EdgeWorker [("name", "晴天 #1")]) = true /\
  (query_safe "%" = true \/ one_of ":/?&=" "%" = true).
Proof.
  split; [reflexivity|].
  apply (forward_url_is_plain_ascii EdgeWorker [("name", "晴天 #1")] "%").
  reflexivity.
Defined.

(** ** The serverless handler *)

Lemma query_name_falsy q :
  truthy (Vercel.query_name q) = false <->
  values_of "name" q = [] \/ values_of "name" q = [""].
Proof.
  unfold Vercel.query_name.
  destruct (values_of "name" q) as [|v [|v' rest]]; simpl.
  - split; auto.
  - destruct (String.eqb_spec v ""); simpl; split; intros H; subst; auto;
      try discriminate.
    destruct H as [H | H]; [discriminate|]. injection H as H. contradiction.
  - split; [discriminate|]. intros [H | H]; discriminate.
Qed.

(** X18. Whatever address it is given, the handler answers 400 without
    fetching exactly when [name] is missing or given once and empty (a
    [name] given twice passes, even if empty). Otherwise it fetches that
    address once; it answers 200 exactly when the body received is JSON, is
    not [null] and reshapes into an object the engine can serialise -
    whatever the upstream's status - and 500 otherwise. *)
Theorem handler_statuses (engine : Engine) (api : string) (req : Request)
    (net : Network) :
  exists reply,
    outcome (Vercel.handler engine api req net) = Normal reply /\
    (status reply = 400%Z <->
       values_of "name" (query req) = [] \/
       values_of "name" (query req) = [""]) /\
    fetched (Vercel.handler engine api req net) =
      (if (status reply =? 400)%Z then [] else [api]) /\
    (status reply = 200%Z <->
       truthy (Vercel.query_name (query req)) = true /\
       exists r body,
         net api = Received r /\ api_body r = Json body /\
         nullish body = false /\
         stringify_throws engine (Vercel.reshaped body) = false) /\
    (status reply = 200%Z \/ status reply = 400%Z \/ status reply = 500%Z).
Proof.
  pose proof (query_name_falsy (query req)) as Hname.
  unfold_run.
  destruct (truthy (Vercel.query_name (query req))) eqn:Etruthy; simpl;
    flat_bodies.
  - assert (Hno : ~ (values_of "name" (query req) = [] \/
                     values_of "name" (query req) = [""])).
    { intros H. apply Hname in H. discriminate. }
    destruct (net api) as [e | r] eqn:Enet; simpl; flat_bodies;
      [|destruct (api_body r) as [e | body] eqn:Ebody; simpl; flat_bodies;
        [|destruct (nullish body) eqn:Enull; simpl; flat_bodies;
          [|destruct (stringify_throws engine (Vercel.reshaped body)) eqn:Efits;
            simpl; flat_bodies]]];
      eexists; (split; [reflexivity|]); simpl;
      (split; [split; [discriminate | intros H; contradiction]|]);
      (split; [reflexivity|]);
      (split; [|auto]);
      split; try discriminate;
      try (intros [_ (r' & body' & Hn & Hb & Hnull & Hfits)]; congruence).
    intros _. split; [reflexivity|]. do 2 eexists. eauto.
  - eexists. split; [reflexivity|]. simpl.
    split; [split; [intros _; apply Hname; reflexivity | reflexivity]|].
    split; [reflexivity|].
    split; [|auto].
    split; [discriminate | intros [H _]; discriminate].
Qed.

(** X19. Where the handler answers 200, the object it sends is the
    upstream's own [code] (an error code such as 404, or [undefined] where
    there is none) and the five fields of [data] as they are, [undefined]
    where one is missing or there is no [data]: it passes no error body
    through, defaults nothing and has no [link]. *)
Theorem handler_copies_fields (engine : Engine) (api : string) (req : Request)
    (net : Network) (r : ApiResponse) (body : value) :
  truthy (Vercel.query_name (query req)) = true ->
  net api = Received r ->
  api_body r = Json body ->
  nullish body = false ->
  stringify_throws engine body = false ->
  Vercel.handler engine api req net =
    ([api],
     Normal {| via := Success; status := 200; headers := [];
               payload := VObj [
                 ("code", prop body "code");
                 ("title", optional_prop (prop body "data") "title");
                 ("singer", optional_prop (prop body "data") "singer");
                 ("cover", optional_prop (prop body "data") "cover");
                 ("music_url", optional_prop (prop body "data") "music_url");
                 ("lyric", optional_prop (prop body "data") "lrc_url")] |}).
Proof.
  intros Hname Hnet Hbody Hnull Hfits. unfold_run.
  rewrite Hname. simpl. rewrite Hnet. simpl. rewrite Hbody, Hnull. simpl.
  assert (Hbuilt : stringify_throws engine (Vercel.reshaped body) = false).
  { apply (stringify_no_deeper engine body); [|exact Hfits].
    pose proof (depth_prop body "code").
    assert (Hfield : forall key,
              depth (optional_prop (prop body "data") key)
                <= Nat.pred (depth body)).
    { intros key. unfold optional_prop.
      pose proof (depth_prop body "data").
      pose proof (depth_prop (prop body "data") key).
      destruct (nullish (prop body "data")); simpl; lia. }
    pose proof (Hfield "title"). pose proof (Hfield "singer").
    pose proof (Hfield "cover"). pose proof (Hfield "music_url").
    pose proof (Hfield "lrc_url").
    unfold Vercel.reshaped. cbn [depth fold_right Nat.pred]. lia. }
  rewrite Hbuilt. reflexivity.
Qed.

Lemma handler_copies_fields_witness :
  Vercel.handler roomy "https://upstream.example/"
    {| method := "GET"; query := [("name", "x")] |}
    (fun _ => Received
       {| api_status := 404;
          api_body := Json (VObj [("code", VNum 404);
                                  ("msg", VStr "not found")]) |})
  = (["https://upstream.example/"],
     Normal {| via := Success; status := 200; headers := [];
               payload := VObj [("code", VNum 404); ("title", VUndefined);
                                ("singer", VUndefined); ("cover", VUndefined);
                                ("music_url", VUndefined);
                                ("lyric", VUndefined)] |}).
Proof.
  apply (handler_copies_fields roomy "https://upstream.example/"
           {| method := "GET"; query := [("name", "x")] |}
           (fun _ => Received
              {| api_status := 404;
                 api_body := Json (VObj [("code", VNum 404);
                                         ("msg", VStr "not found")]) |})
           {| api_status := 404;
              api_body := Json (VObj [("code", VNum 404);
                                      ("msg", VStr "not found")]) |}
           (VObj [("code", VNum 404); ("msg", VStr "not found")]));
    reflexivity.
Defined.

(** ** Telling failures apart *)


